(** * Tender-extraction normalizer and heuristic scorers of ReikanTenderAI.tsx

    A shallow embedding of the pure helpers of [src/src/ReikanTenderAI.tsx]
    ([normalizeText], [isPlaceholder], [mergeSourceDocuments], the [pickTop*]
    selectors, [getEconomicText], [buildTimelineSteps], [mapSummaryToTender],
    [pct], [computeWinProbability], [routeFeasibilityScore], [calcPrice]),
    of the state updates of its wizard ([setDocStatus], [handleUpload],
    [applyPreset], the keyboard navigation) and of the retry loop
    [waitForSummary] of [src/src/components/FileUploadZone.tsx], together
    with the properties the specification states about them and further
    properties of the code.

    Conventions of the embedding.
    - A JavaScript string is a [string]; every [ascii] is one code unit in
      the range 0..255 (Basic Latin and Latin-1 Supplement).  On that range
      [toLowerCase], [trim] and the regular-expression class [\s] are exactly
      the functions defined below.
    - A finite JavaScript number is a rational ([Q]); [number] adds [NaN] and
      the two infinities where a conversion can produce them.  Arithmetic is
      exact: no rounding of intermediate results, no overflow, no underflow.
      On the integers the application passes (scores, percentages, counts of
      documents, days, kilometres) the scorers agree with the arithmetic on
      doubles, whose error stays far below the distance to a rounding tie.
    - A loosely typed value ([any]) is a [JV].  An operation that raises a
      [TypeError] in JavaScript returns [Throw]; the functions that can raise
      one return a [result].
    - [Map] and [Set] are lists in insertion order where the program reads
      that order, and [gmap] or [gset] where it only looks keys up. *)

From Stdlib Require Import ZArith QArith Qround Qminmax Lqa Lia Sorted.
From Stdlib Require Import Ascii String DecimalString.
From stdpp Require Import base option list gmap strings.

Local Open Scope string_scope.
Local Open Scope Z_scope.

(** ** Exceptions *)

Inductive result (A : Type) : Type :=
| Ok (a : A)
| Throw.
Arguments Ok {A} a.
Arguments Throw {A}.

Definition bind {A B : Type} (r : result A) (k : A -> result B) : result B :=
  match r with
  | Ok a => k a
  | Throw => Throw
  end.

Notation "'let*' x ':=' e 'in' k" := (bind e (fun x => k))
  (at level 10, x name, e at level 100, k at level 200).

(** [Array.prototype.map] with a callback that may throw, left to right. *)
Fixpoint mapM {A B : Type} (f : A -> result B) (l : list A) : result (list B) :=
  match l with
  | [] => Ok []
  | x :: l' => let* y := f x in let* ys := mapM f l' in Ok (y :: ys)
  end.

(** [Array.prototype.forEach] threading an accumulator, the callback
    receiving the element and its index. *)
Fixpoint forEachFrom {A St : Type} (f : St -> A -> nat -> result St)
    (i : nat) (l : list A) (s : St) : result St :=
  match l with
  | [] => Ok s
  | x :: l' => let* s' := f s x i in forEachFrom f (S i) l' s'
  end.

Definition forEach {A St : Type} (f : St -> A -> nat -> result St)
    (l : list A) (s : St) : result St :=
  forEachFrom f 0%nat l s.

(** ** Strings *)

Module JsString.

Definition code (c : ascii) : N := N_of_ascii c.

(** WhiteSpace and LineTerminator code units below 256: TAB, LF, VT, FF,
    CR, SP, NBSP.  This is both what [trim] strips and what [\s] matches. *)
Definition isSpace (c : ascii) : bool :=
  let n := code c in
  ((9 <=? n) && (n <=? 13) || (n =? 32) || (n =? 160))%N.

Definition lowerChar (c : ascii) : ascii :=
  let n := code c in
  if ((65 <=? n) && (n <=? 90))%N then ascii_of_N (n + 32)
  else if ((192 <=? n) && (n <=? 222) && negb (n =? 215))%N
       then ascii_of_N (n + 32)
  else c.

Fixpoint toLowerCase (s : string) : string :=
  match s with
  | EmptyString => EmptyString
  | String c s' => String (lowerChar c) (toLowerCase s')
  end.

Fixpoint trimStart (s : string) : string :=
  match s with
  | EmptyString => EmptyString
  | String c s' => if isSpace c then trimStart s' else s
  end.

Fixpoint trimEnd (s : string) : string :=
  match s with
  | EmptyString => EmptyString
  | String c s' =>
      match trimEnd s' with
      | EmptyString => if isSpace c then EmptyString else String c EmptyString
      | r => String c r
      end
  end.

Definition trim (s : string) : string := trimEnd (trimStart s).

(** [s.replace(/\s+/g, " ")]: [inRun] tells whether the previous code unit
    belonged to the run of white space already replaced. *)
Fixpoint collapseFrom (inRun : bool) (s : string) : string :=
  match s with
  | EmptyString => EmptyString
  | String c s' =>
      if isSpace c
      then if inRun then collapseFrom true s'
           else String " " (collapseFrom true s')
      else String c (collapseFrom false s')
  end.

Definition collapseSpaces (s : string) : string := collapseFrom false s.

(** [s.startsWith(p)] *)
Fixpoint startsWith (p s : string) : bool :=
  match p with
  | EmptyString => true
  | String a p' =>
      match s with
      | EmptyString => false
      | String b s' => Ascii.eqb a b && startsWith p' s'
      end
  end.

(** [s.includes(p)]: [p] starts at some position of [s]. *)
Fixpoint includes (p s : string) : bool :=
  startsWith p s ||
  match s with
  | EmptyString => false
  | String _ s' => includes p s'
  end.

Definition isEmpty (s : string) : bool :=
  match s with EmptyString => true | _ => false end.

(** [parts.join(sep)] *)
Fixpoint join (sep : string) (parts : list string) : string :=
  match parts with
  | [] => ""
  | [p] => p
  | p :: rest => p ++ sep ++ join sep rest
  end.

End JsString.
Import JsString.

(** ** Numbers *)

Module JsNumber.

Inductive number : Type :=
| NaN
| PosInf
| NegInf
| Fin (q : Q).

Definition ofZ (z : Z) : number := Fin (inject_Z z).

(** [Number.isFinite(n)] *)
Definition isFinite (n : number) : bool :=
  match n with Fin _ => true | _ => false end.

(** [n === 0] *)
Definition isZero (n : number) : bool :=
  match n with Fin q => Qeq_bool q 0 | _ => false end.

(** ToBoolean on a number: [NaN] and zero are falsy. *)
Definition truthy (n : number) : bool :=
  match n with
  | NaN => false
  | Fin q => negb (Qeq_bool q 0)
  | _ => true
  end.

(** [a - b] *)
Definition sub (a b : number) : number :=
  match a, b with
  | NaN, _ | _, NaN => NaN
  | Fin x, Fin y => Fin (x - y)
  | PosInf, PosInf | NegInf, NegInf => NaN
  | PosInf, _ | _, NegInf => PosInf
  | NegInf, _ | _, PosInf => NegInf
  end.

(** [a > b] *)
Definition gt (a b : number) : bool :=
  match a, b with
  | NaN, _ | _, NaN => false
  | Fin x, Fin y => negb (Qle_bool x y)
  | PosInf, PosInf | NegInf, _ | _, PosInf => false
  | PosInf, _ | _, NegInf => true
  end.

(** [Math.round(x)]: the nearest integer, a tie going up. *)
Definition round (x : Q) : Z := Qfloor (x + (1 # 2)).

(** [Math.max(a, b)] and [Math.min(a, b)] on finite numbers. *)
Definition max (a b : Q) : Q := Qmax a b.
Definition min (a b : Q) : Q := Qmin a b.

Definition digitChar (d : N) : ascii := ascii_of_N (48 + d).

Definition natToString (n : N) : string :=
  NilZero.string_of_uint (N.to_uint n).

(** The digits after the decimal point of [r / d], for [r < d]. *)
Fixpoint fractionDigits (fuel : nat) (r d : N) : string :=
  match fuel with
  | O => ""
  | S fuel' =>
      if (r =? 0)%N then ""
      else String (digitChar (r * 10 / d)) (fractionDigits fuel' (r * 10 mod d) d)
  end.

(** Number::toString of a finite number whose decimal expansion terminates
    (as that of every JSON literal does) and that JavaScript prints in
    plain, non-exponential notation. *)
Definition finToString (q : Q) : string :=
  let n := Z.abs_N (Qnum q) in
  let d := Npos (Qden q) in
  let body := natToString (n / d)%N in
  let frac := fractionDigits 20 (n mod d)%N d in
  let unsigned := if isEmpty frac then body else body ++ "." ++ frac in
  if (Qnum q <? 0)%Z then "-" ++ unsigned else unsigned.

Definition toString (n : number) : string :=
  match n with
  | NaN => "NaN"
  | PosInf => "Infinity"
  | NegInf => "-Infinity"
  | Fin q => finToString q
  end.

(** *** StringToNumber *)

Definition digitVal (base : N) (c : ascii) : option N :=
  let n := code c in
  let v :=
    if ((48 <=? n) && (n <=? 57))%N then Some (n - 48)%N
    else if ((97 <=? n) && (n <=? 102))%N then Some (n - 87)%N
    else if ((65 <=? n) && (n <=? 70))%N then Some (n - 55)%N
    else None in
  match v with
  | Some d => if (d <? base)%N then Some d else None
  | None => None
  end.

(** Reads the longest prefix of digits: its value, its length, the rest. *)
Fixpoint readDigits (base acc : N) (count : nat) (s : string) : N * nat * string :=
  match s with
  | EmptyString => (acc, count, s)
  | String c s' =>
      match digitVal base c with
      | Some d => readDigits base (acc * base + d)%N (S count) s'
      | None => (acc, count, s)
      end
  end.

(** A whole string of digits in the given base, at least one. *)
Definition parseRadix (base : N) (s : string) : number :=
  match readDigits base 0 0 s with
  | (v, S _, EmptyString) => Fin (inject_Z (Z.of_N v))
  | _ => NaN
  end.

(** ExponentPart, or nothing, up to the end of the string. *)
Definition parseExponent (s : string) : option Z :=
  match s with
  | EmptyString => Some 0
  | String c s1 =>
      if (Ascii.eqb c "e" || Ascii.eqb c "E")%bool then
        let '(neg, s2) :=
          match s1 with
          | String "+" r => (false, r)
          | String "-" r => (true, r)
          | _ => (false, s1)
          end in
        match readDigits 10 0 0 s2 with
        | (v, S _, EmptyString) => Some (if neg : bool then - Z.of_N v else Z.of_N v)
        | _ => None
        end
      else None
  end.

(** StrUnsignedDecimalLiteral other than [Infinity]. *)
Definition parseDecimal (s : string) : option Q :=
  let '(ip, ni, s1) := readDigits 10 0 0 s in
  let '(fp, nf, s2) :=
    match s1 with
    | String "." r => readDigits 10 0 0 r
    | _ => (0%N, 0%nat, s1)
    end in
  match (ni + nf)%nat with
  | O => None
  | _ =>
      match parseExponent s2 with
      | None => None
      | Some e =>
          let scale := (10 ^ Z.of_nat nf)%Z in
          Some (Qmult (Qmake (Z.of_N ip * scale + Z.of_N fp) (Z.to_pos scale))
                      (Qpower (10 # 1) e))
      end
  end.

Definition parseSigned (s : string) : number :=
  let '(neg, body) :=
    match s with
    | String "+" r => (false, r)
    | String "-" r => (true, r)
    | _ => (false, s)
    end in
  if String.eqb body "Infinity" then (if neg : bool then NegInf else PosInf)
  else match parseDecimal body with
       | Some q => Fin (if neg : bool then - q else q)
       | None => NaN
       end.

(** [Number(s)] for a string [s]. *)
Definition StringToNumber (s : string) : number :=
  match trim s with
  | EmptyString => Fin 0
  | String "0" (String c r) as t =>
      if (Ascii.eqb c "x" || Ascii.eqb c "X")%bool then parseRadix 16 r
      else if (Ascii.eqb c "o" || Ascii.eqb c "O")%bool then parseRadix 8 r
      else if (Ascii.eqb c "b" || Ascii.eqb c "B")%bool then parseRadix 2 r
      else parseSigned t
  | t => parseSigned t
  end.

End JsNumber.
Import JsNumber.

(** ** Loosely typed values *)

(** A value of type [any] as the extraction service delivers it: JSON data,
    plus [undefined] as the result of reading a property that is not there.
    The fields of an object are listed with distinct keys. *)
#[warnings="-register-all"]
Inductive JV : Type :=
| JUndef
| JNull
| JBool (b : bool)
| JNum (q : Q)
| JStr (s : string)
| JArr (items : list JV)
| JObj (fields : list (string * JV)).

Module Js.

Fixpoint lookup (k : string) (fields : list (string * JV)) : option JV :=
  match fields with
  | [] => None
  | (k', v) :: rest => if String.eqb k k' then Some v else lookup k rest
  end.

Definition hasOwn (k : string) (fields : list (string * JV)) : bool :=
  match lookup k fields with Some _ => true | None => false end.

(** [v?.k] and, for a [v] that is neither [undefined] nor [null], [v.k].
    [k] ranges over the property names the source reads; none of them is a
    member of a built-in prototype, so only own properties of objects
    answer. *)
Definition get (v : JV) (k : string) : JV :=
  match v with
  | JObj fields => match lookup k fields with Some x => x | None => JUndef end
  | _ => JUndef
  end.

(** ToBoolean *)
Definition truthy (v : JV) : bool :=
  match v with
  | JUndef | JNull => false
  | JBool b => b
  | JNum q => negb (Qeq_bool q 0)
  | JStr s => negb (isEmpty s)
  | JArr _ | JObj _ => true
  end.

(** [a || b] *)
Definition or (a b : JV) : JV := if truthy a then a else b.

(** [a ?? b] *)
Definition nullish (a b : JV) : JV :=
  match a with
  | JUndef | JNull => b
  | _ => a
  end.

(** [Array.isArray(v) ? v : []] *)
Definition arrayOrEmpty (v : JV) : list JV :=
  match v with
  | JArr items => items
  | _ => []
  end.

(** [v === s] for a string [s]. *)
Definition strictEqStr (v : JV) (s : string) : bool :=
  match v with
  | JStr t => String.eqb t s
  | _ => false
  end.

(** [v.trim()] for a [v] that is neither [undefined] nor [null]: only a
    string has a callable [trim]. *)
Definition callTrim (v : JV) : result string :=
  match v with
  | JStr s => Ok (trim s)
  | _ => Throw
  end.

(** [v.toLowerCase()], likewise. *)
Definition callToLowerCase (v : JV) : result string :=
  match v with
  | JStr s => Ok (toLowerCase s)
  | _ => Throw
  end.

(** ToString, as applied by a template literal and by [Array.prototype.join].
    A JSON object converts through the inherited [Object.prototype.toString]
    unless an own property named [toString] hides it: that one is never
    callable and the inherited [valueOf] returns the object itself, which
    is a [TypeError]. *)
Fixpoint ToString (v : JV) : result string :=
  match v with
  | JUndef => Ok "undefined"
  | JNull => Ok "null"
  | JBool true => Ok "true"
  | JBool false => Ok "false"
  | JNum q => Ok (toString (Fin q))
  | JStr s => Ok s
  | JArr items =>
      let fix elements (l : list JV) : result (list string) :=
        match l with
        | [] => Ok []
        | x :: rest =>
            let* s := match x with
                      | JUndef | JNull => Ok ""
                      | _ => ToString x
                      end in
            let* ss := elements rest in
            Ok (s :: ss)
        end in
      let* parts := elements items in
      Ok (join "," parts)
  | JObj fields => if hasOwn "toString" fields then Throw else Ok "[object Object]"
  end.

(** [v.toString()] for a [v] that is neither [undefined] nor [null]: the
    method found on each kind of value performs the conversion above. *)
Definition callToString (v : JV) : result string := ToString v.

(** [Number(v)] *)
Definition ToNumber (v : JV) : result number :=
  match v with
  | JUndef => Ok NaN
  | JNull => Ok (Fin 0)
  | JBool true => Ok (Fin 1)
  | JBool false => Ok (Fin 0)
  | JNum q => Ok (Fin q)
  | JStr s => Ok (StringToNumber s)
  | JArr _ | JObj _ => let* s := ToString v in Ok (StringToNumber s)
  end.

(** [JSON.parse(JSON.stringify(v))] for a [v] that [JSON.stringify] does
    not turn into [undefined]: a property holding [undefined] is left out,
    an array element holding [undefined] becomes [null]. *)
Fixpoint jsonClone (v : JV) : JV :=
  match v with
  | JArr items =>
      JArr ((fix elements (l : list JV) : list JV :=
               match l with
               | [] => []
               | x :: rest =>
                   match x with
                   | JUndef => JNull
                   | _ => jsonClone x
                   end :: elements rest
               end) items)
  | JObj fields =>
      JObj ((fix members (l : list (string * JV)) : list (string * JV) :=
               match l with
               | [] => []
               | (k, x) :: rest =>
                   match x with
                   | JUndef => members rest
                   | _ => (k, jsonClone x) :: members rest
                   end
               end) fields)
  | _ => v
  end.

(** [Array.prototype.sort(compare)] as a stable insertion sort.  For a
    consistent comparison function every conforming sort returns this
    list; [compare] returning [NaN] counts as 0. *)
Section Sort.
Context {A : Type} (compare : A -> A -> number).

Definition notAfter (a b : A) : bool :=
  match compare a b with
  | NaN | NegInf => true
  | PosInf => false
  | Fin q => Qle_bool q 0
  end.

Fixpoint insert (x : A) (l : list A) : list A :=
  match l with
  | [] => [x]
  | y :: l' => if notAfter x y then x :: l else y :: insert x l'
  end.

Fixpoint sort (l : list A) : list A :=
  match l with
  | [] => []
  | x :: l' => insert x (sort l')
  end.
End Sort.

End Js.
Import Js.

(** Insertion-ordered containers: [Map<string, V>] and [Set<string>] as the
    program uses them, where the order of [values()] is the order in which
    the keys first arrived. *)
Module JsMap.
Section Entries.
Context {V : Type}.

Definition t : Type := list (string * V).

Fixpoint get (k : string) (m : t) : option V :=
  match m with
  | [] => None
  | (k', v) :: rest => if String.eqb k k' then Some v else get k rest
  end.

Definition has (k : string) (m : t) : bool :=
  match get k m with Some _ => true | None => false end.

(** [m.set(k, v)]: a key already there keeps its position. *)
Fixpoint set (k : string) (v : V) (m : t) : t :=
  match m with
  | [] => [(k, v)]
  | (k', v') :: rest =>
      if String.eqb k k' then (k', v) :: rest else (k', v') :: set k v rest
  end.

(** [Array.from(m.values())] *)
Definition values (m : t) : list V := List.map snd m.
End Entries.
Arguments t V : clear implicits.
End JsMap.

Module JsSet.
Definition t : Type := list string.

Definition has (x : string) (s : t) : bool := existsb (String.eqb x) s.

Definition add (x : string) (s : t) : t := if has x s then s else (s ++ [x])%list.

(** [new Set(items)] *)
Definition ofList (items : list string) : t :=
  fold_left (fun s x => add x s) items [].
End JsSet.

(** ** Placeholder detection (source lines 190-211) *)

Definition PLACEHOLDERS : JsSet.t :=
  JsSet.ofList
    [ "unbekannt"; "unknown"; "tbd"; "n/a"; "nicht vorhanden"; "keine angabe";
      "unspecified"; "..."; "null"; "none"; "k.a." ].

Definition normalizeText (text : string) : string :=
  collapseSpaces (trim (toLowerCase text)).

(** [isPlaceholder] applied to a string. *)
Definition isPlaceholder (text : string) : bool :=
  if isEmpty text then true
  else
    let normalized := normalizeText text in
    (String.length normalized <? 3)%nat || JsSet.has normalized PLACEHOLDERS.

(** [isPlaceholder] applied to a value that was never checked to be a
    string: [!text] answers for the falsy ones, a string is normalized, and
    anything else has no [toLowerCase] to call. *)
Definition isPlaceholderAny (text : JV) : result bool :=
  if negb (truthy text) then Ok true
  else
    let* lowered := callToLowerCase text in
    let normalized := collapseSpaces (trim lowered) in
    Ok ((String.length normalized <? 3)%nat || JsSet.has normalized PLACEHOLDERS).

(** ** mergeSourceDocuments (source lines 213-221) *)

Definition mergeSourceDocuments (a b : JV) : result string :=
  let present := List.filter truthy [a; b] in
  let* trimmed := mapM (fun value => callTrim (or value (JStr ""))) present in
  let parts := JsSet.ofList (List.filter (fun value => (0 <? String.length value)%nat) trimmed) in
  Ok (join "; " parts).

(** ** Records handed to the user interface *)

Record SourceInfo : Type := {
  text : JV;
  source_document : JV;
  source_chunk_id : JV;
  detail : option string
}.

(** ** pickTopRisks (source lines 223-259) *)

Record RiskEntry : Type := {
  risk_text : string;
  risk_source_document : JV;
  risk_source_chunk_id : JV;
  risk_severity : string;
  risk_index : nat
}.

(** What [severityRank[s] || 1] evaluates to.  [severityRank] is an object
    literal, so a name that it does not define itself is looked up on
    [Object.prototype]; the members found there are functions or objects,
    all truthy, and convert to [NaN] in arithmetic. *)
Inductive rankValue : Type :=
| RankNumber (z : Z)
| RankInherited.

Definition severityRank : list (string * Z) :=
  [ ("high", 3); ("medium", 2); ("low", 1) ].

Definition objectPrototypeMembers : list string :=
  [ "constructor"; "__proto__"; "hasOwnProperty"; "isPrototypeOf";
    "propertyIsEnumerable"; "toLocaleString"; "toString"; "valueOf";
    "__defineGetter__"; "__defineSetter__"; "__lookupGetter__";
    "__lookupSetter__" ].

Definition rankOrOne (severity : string) : rankValue :=
  match JsMap.get severity severityRank with
  | Some z => if (z =? 0) then RankNumber 1 else RankNumber z
  | None =>
      if existsb (String.eqb severity) objectPrototypeMembers
      then RankInherited
      else RankNumber 1
  end.

Definition rankDifference (b a : rankValue) : number :=
  match b, a with
  | RankNumber y, RankNumber x => ofZ (y - x)
  | _, _ => NaN
  end.

(** The comparison function handed to [sort]:
    [bRank - aRank || a.index - b.index]. *)
Definition compareRisks (a b : RiskEntry) : number :=
  let aRank := rankOrOne (risk_severity a) in
  let bRank := rankOrOne (risk_severity b) in
  let byRank := rankDifference bRank aRank in
  if JsNumber.truthy byRank then byRank
  else ofZ (Z.of_nat (risk_index a) - Z.of_nat (risk_index b)).

Definition pickTopRisks_each (metaSource : JV) (deduped : JsMap.t RiskEntry)
    (risk : JV) (index : nat) : result (JsMap.t RiskEntry) :=
  let* text := callTrim (or (or (get risk "risk_de") (get risk "text")) (JStr "")) in
  let* severityText := callToString (or (get risk "severity") (JStr "")) in
  let severity := toLowerCase severityText in
  if isEmpty text || isPlaceholder text || isEmpty severity then Ok deduped
  else
    let key := normalizeText text in
    if isEmpty key then Ok deduped
    else
      let source_document := or (or (get risk "source_document") metaSource) (JStr "") in
      let source_chunk_id := nullish (get risk "source_chunk_id") JNull in
      match JsMap.get key deduped with
      | Some existing =>
          let* merged :=
            mergeSourceDocuments (risk_source_document existing) source_document in
          Ok (JsMap.set key
                {| risk_text := risk_text existing;
                   risk_source_document := JStr merged;
                   risk_source_chunk_id := risk_source_chunk_id existing;
                   risk_severity := risk_severity existing;
                   risk_index := risk_index existing |}
                deduped)
      | None =>
          Ok (JsMap.set key
                {| risk_text := text;
                   risk_source_document := source_document;
                   risk_source_chunk_id := source_chunk_id;
                   risk_severity := severity;
                   risk_index := index |}
                deduped)
      end.

Definition riskToSourceInfo (r : RiskEntry) : SourceInfo :=
  {| text := JStr (risk_text r);
     source_document := risk_source_document r;
     source_chunk_id := risk_source_chunk_id r;
     detail := None |}.

Definition pickTopRisks (risks : list JV) (metaSource : JV) : result (list SourceInfo) :=
  let* deduped := forEach (pickTopRisks_each metaSource) risks [] in
  Ok (List.map riskToSourceInfo
        (take 5 (sort compareRisks (JsMap.values deduped)))).

(** [Array.prototype.map] with a callback that reads the index too. *)
Fixpoint mapMiFrom {A B : Type} (f : A -> nat -> result B) (i : nat) (l : list A)
    : result (list B) :=
  match l with
  | [] => Ok []
  | x :: l' => let* y := f x i in let* ys := mapMiFrom f (S i) l' in Ok (y :: ys)
  end.

Definition mapMi {A B : Type} (f : A -> nat -> result B) (l : list A) : result (list B) :=
  mapMiFrom f 0%nat l.

(** ** pickTopRequirements (source lines 261-297) *)

Record Requirement : Type := {
  req_text : string;
  req_detail : string;
  req_source_document : JV;
  req_source_chunk_id : JV;
  req_index : nat
}.

(** [(req?.requirement_de || req?.text || "").trim()] *)
Definition requirementText (req : JV) : result string :=
  callTrim (or (or (get req "requirement_de") (get req "text")) (JStr "")).

(** [(req?.explanation_de || req?.explanation || req?.description_de || "").trim()] *)
Definition requirementDetail (req : JV) : result string :=
  callTrim (or (or (or (get req "explanation_de") (get req "explanation"))
                   (get req "description_de")) (JStr "")).

(** The callback of [requirements.map]. *)
Definition requirementOf (req : JV) (index : nat) : result Requirement :=
  let* text := requirementText req in
  let* detail := requirementDetail req in
  Ok {| req_text := text;
        req_detail := detail;
        req_source_document := or (get req "source_document") (JStr "");
        req_source_chunk_id := nullish (get req "source_chunk_id") JNull;
        req_index := index |}.

Definition keepRequirement (req : Requirement) : bool :=
  negb (isEmpty (req_text req)) && negb (isPlaceholder (req_text req)).

Definition compareRequirements (primarySource : string) (a b : Requirement) : number :=
  let aPrimary := if strictEqStr (req_source_document a) primarySource then 0 else 1 in
  let bPrimary := if strictEqStr (req_source_document b) primarySource then 0 else 1 in
  let byPrimary := ofZ (aPrimary - bPrimary) in
  if JsNumber.truthy byPrimary then byPrimary
  else ofZ (Z.of_nat (req_index a) - Z.of_nat (req_index b)).

Definition requirementToSourceInfo (primarySource : string) (req : Requirement) : SourceInfo :=
  {| text := JStr (req_text req);
     detail := if isEmpty (req_detail req) then None else Some (req_detail req);
     source_document := or (or (req_source_document req) (JStr primarySource)) (JStr "");
     source_chunk_id := req_source_chunk_id req |}.

(** The [for ... of] loop with its [continue] and [break]. *)
Fixpoint pickTopRequirements_loop (primarySource : string) (ordered : list Requirement)
    (seen : gset string) (result : list SourceInfo) : list SourceInfo :=
  match ordered with
  | [] => result
  | req :: rest =>
      let key := normalizeText (req_text req) in
      if bool_decide (key ∈ seen)
      then pickTopRequirements_loop primarySource rest seen result
      else
        let seen' := {[ key ]} ∪ seen in
        let result' := (result ++ [requirementToSourceInfo primarySource req])%list in
        if (5 <=? length result')%nat then result'
        else pickTopRequirements_loop primarySource rest seen' result'
  end.

Definition pickTopRequirements (requirements : list JV) (metaSource : JV)
    : result (list SourceInfo) :=
  let* primarySource := callTrim (or metaSource (JStr "")) in
  let* mapped := mapMi requirementOf requirements in
  let ordered :=
    sort (compareRequirements primarySource) (List.filter keepRequirement mapped) in
  Ok (pickTopRequirements_loop primarySource ordered ∅ []).

(** ** pickTopCriteria (source lines 299-333) *)

Record Criterion : Type := {
  crit_text : string;
  crit_weight : number;
  crit_source_document : JV;
  crit_source_chunk_id : JV
}.

(** [(crit?.criterion_de || crit?.text || "").trim()] *)
Definition criterionText (crit : JV) : result string :=
  callTrim (or (or (get crit "criterion_de") (get crit "text")) (JStr "")).

(** [Number(crit?.weight_percent ?? 0)] *)
Definition criterionWeight (crit : JV) : result number :=
  ToNumber (nullish (get crit "weight_percent") (JNum 0)).

Definition pickTopCriteria_each (metaSource : JV) (seen : JsMap.t Criterion)
    (crit : JV) (index : nat) : result (JsMap.t Criterion) :=
  let* text := criterionText crit in
  if isEmpty text || isPlaceholder text then Ok seen
  else
    let* weight := criterionWeight crit in
    if isFinite weight && isZero weight then Ok seen
    else
      let key := normalizeText text in
      let source_document := or (or (get crit "source_document") metaSource) (JStr "") in
      let source_chunk_id := nullish (get crit "source_chunk_id") JNull in
      let fresh :=
        {| crit_text := text;
           crit_weight := weight;
           crit_source_document := source_document;
           crit_source_chunk_id := source_chunk_id |} in
      match JsMap.get key seen with
      | None => Ok (JsMap.set key fresh seen)
      | Some existing =>
          if gt weight (crit_weight existing) then Ok (JsMap.set key fresh seen)
          else
            let* merged :=
              mergeSourceDocuments (crit_source_document existing) source_document in
            Ok (JsMap.set key
                  {| crit_text := crit_text existing;
                     crit_weight := crit_weight existing;
                     crit_source_document := JStr merged;
                     crit_source_chunk_id := crit_source_chunk_id existing |}
                  seen)
      end.

Definition compareCriteria (a b : Criterion) : number :=
  sub (crit_weight b) (crit_weight a).

Definition criterionToSourceInfo (item : Criterion) : SourceInfo :=
  {| text :=
       JStr (if JsNumber.truthy (crit_weight item)
             then crit_text item ++ " (" ++ toString (crit_weight item) ++ "%)"
             else crit_text item);
     source_document := crit_source_document item;
     source_chunk_id := crit_source_chunk_id item;
     detail := None |}.

Definition pickTopCriteria (criteria : list JV) (metaSource : JV) : result (list SourceInfo) :=
  let* seen := forEach (pickTopCriteria_each metaSource) criteria [] in
  Ok (List.map criterionToSourceInfo
        (take 5 (sort compareCriteria (JsMap.values seen)))).

(** ** pickTopStrings (source lines 335-346) *)

Definition pickTopStrings_each (deduped : JsMap.t string) (item : JV) (index : nat)
    : result (JsMap.t string) :=
  let* text :=
    callTrim (match item with
              | JStr _ => item
              | _ => or (get item "text") (JStr "")
              end) in
  if isEmpty text || isPlaceholder text then Ok deduped
  else
    let key := normalizeText text in
    if JsMap.has key deduped then Ok deduped else Ok (JsMap.set key text deduped).

Definition pickTopStrings (items : list JV) (limit : nat) : result (list string) :=
  let* deduped := forEach pickTopStrings_each items [] in
  Ok (take limit (JsMap.values deduped)).

(** ** buildTimelineSteps (source lines 354-410) *)

(** The letters of the keyword and city lists outside Basic Latin. *)
Definition a_umlaut : string := String (ascii_of_N 228) "".
Definition o_umlaut : string := String (ascii_of_N 246) "".
Definition u_umlaut : string := String (ascii_of_N 252) "".

Record TimelineStep : Type := {
  step_title_de : string;
  step_description_de : string;
  step_days_de : string;
  step_source_document : JV;
  step_source_chunk_id : JV;
  step_index : Z
}.

Record Bucket : Type := {
  bucket_key : string;
  bucket_label : string;
  bucket_keywords : list string
}.

Record ProcessStep : Type := {
  step : nat;
  title_de : string;
  description_de : string;
  days_de : string;
  ps_source_document : JV;
  ps_source_chunk_id : JV
}.

Definition MAX_SAFE_INTEGER : Z := 2 ^ 53 - 1.

Definition timelineStepOf (metaSource : JV) (item : JV) (index : nat) : result TimelineStep :=
  let* title := callTrim (or (get item "title_de") (JStr "")) in
  let* description := callTrim (or (get item "description_de") (JStr "")) in
  let* days := callTrim (or (get item "days_de") (JStr "")) in
  Ok {| step_title_de := title;
        step_description_de := description;
        step_days_de := days;
        step_source_document := or (or (get item "source_document") metaSource) (JStr "");
        step_source_chunk_id := nullish (get item "source_chunk_id") JNull;
        step_index := Z.of_nat index |}.

Definition keepStep (s : TimelineStep) : bool :=
  negb (isEmpty (step_title_de s)) && negb (isPlaceholder (step_title_de s)).

Definition buckets : list Bucket :=
  [ {| bucket_key := "preparation"; bucket_label := "Vorbereitung";
       bucket_keywords := ["vorbereitung"; "planung"; "beschaffung"; "bereitstellung"] |};
    {| bucket_key := "review"; bucket_label := "Interne Freigabe/Review";
       bucket_keywords := ["freigabe"; "review"; "pr" ++ u_umlaut ++ "fung"; "genehmigung"] |};
    {| bucket_key := "submission"; bucket_label := "Angebotsabgabe";
       bucket_keywords := ["abgabe"; "einreich"; "submission"; "angebot"] |};
    {| bucket_key := "clarifications"; bucket_label := "Nachforderungen";
       bucket_keywords := ["nachforderung"; "kl" ++ a_umlaut ++ "rung";
                           "r" ++ u_umlaut ++ "ckfrage"; "clarification"] |};
    {| bucket_key := "award"; bucket_label := "Zuschlag";
       bucket_keywords := ["zuschlag"; "vergabeentscheidung"; "entscheidung"; "award"] |};
    {| bucket_key := "execution"; bucket_label := "Leistungsbeginn";
       bucket_keywords := ["leistungsbeginn"; "ausf" ++ u_umlaut ++ "hrung"; "beginn"; "start"] |} ].

Definition haystackOf (s : TimelineStep) : string :=
  normalizeText (step_title_de s ++ " " ++ step_description_de s).

Definition bucketMatches (haystack : string) (b : Bucket) : bool :=
  existsb (fun keyword => includes keyword haystack) (bucket_keywords b).

(** [buckets.find((b) => b.keywords.some(...))] *)
Definition bucketOf (s : TimelineStep) : option Bucket :=
  List.find (bucketMatches (haystackOf s)) buckets.

(** The callback of [validSteps.forEach]. *)
Definition assignBucket (bucketed : gmap string TimelineStep) (s : TimelineStep)
    : gmap string TimelineStep :=
  match bucketOf s with
  | None => bucketed
  | Some bucket =>
      match bucketed !! bucket_key bucket with
      | Some _ => bucketed
      | None => <[ bucket_key bucket := s ]> bucketed
      end
  end.

(** The step written into [bucketed.submission] from the deadline, whose
    text the template literal has already converted. *)
Definition submissionFromDeadline (timeline metaSource : JV) (deadlineText : string)
    : TimelineStep :=
  {| step_title_de := "Angebotsabgabe";
     step_description_de := "Abgabefrist: " ++ deadlineText;
     step_days_de := "";
     step_source_document := or (or (get timeline "source_document") metaSource) (JStr "");
     step_source_chunk_id := JNull;
     step_index := MAX_SAFE_INTEGER |}.

(** The [if] that fills an empty submission bucket from the deadline. *)
Definition synthesizeSubmission (bucketed : gmap string TimelineStep) (timeline metaSource : JV)
    : result (gmap string TimelineStep) :=
  match bucketed !! "submission" with
  | Some _ => Ok bucketed
  | None =>
      if truthy (get timeline "submission_deadline_de") then
        let* deadlineText := ToString (get timeline "submission_deadline_de") in
        Ok (<[ "submission" := submissionFromDeadline timeline metaSource deadlineText ]>
              bucketed)
      else Ok bucketed
  end.

(** The closing [.map((step, idx) => ...)], [idx] counting from [from]. *)
Fixpoint numberSteps (from : nat) (l : list TimelineStep) : list ProcessStep :=
  match l with
  | [] => []
  | s :: rest =>
      {| step := from + 1;
         title_de := step_title_de s;
         description_de := step_description_de s;
         days_de := step_days_de s;
         ps_source_document := step_source_document s;
         ps_source_chunk_id := step_source_chunk_id s |} :: numberSteps (S from) rest
  end.

Definition buildTimelineSteps (steps : list JV) (timeline metaSource : JV)
    : result (list ProcessStep) :=
  let* mapped := mapMi (timelineStepOf metaSource) steps in
  let validSteps := List.filter keepStep mapped in
  let bucketed := fold_left assignBucket validSteps ∅ in
  let* bucketed := synthesizeSubmission bucketed timeline metaSource in
  Ok (numberSteps 0
        (take 6 (omap (fun bucket => bucketed !! bucket_key bucket) buckets))).

(** ** mapSummaryToTender (source lines 858-947) *)

Record BatchSummary : Type := {
  run_id : JV;
  ui_json : JV;
  total_files : JV;
  success_files : JV;
  failed_files : JV;
  status : JV
}.

Record BatchSummaryPayload : Type := {
  batchId : JV;
  summary : BatchSummary
}.

Record TenderSources : Type := {
  src_title : JV;
  src_buyer : JV;
  src_mustCriteria : JV;
  src_logistics : JV;
  src_deadline : JV;
  src_certifications : JV;
  src_scopeOfWork : JV;
  src_pricingModel : JV;
  src_penalties : JV;
  src_evaluationCriteria : JV;
  src_submission : JV;
  src_legalRisks : JV
}.

(** The object [mapSummaryToTender] returns, field by field.  A field copied
    from the bundle without a conversion keeps the type [JV]. *)
Record Tender : Type := {
  id : JV;
  title : JV;
  buyer : JV;
  region : JV;
  deadline : JV;
  url : string;
  score : Q;
  legalRisks : list JV;
  legalRisksWithSource : list SourceInfo;
  mustHits : Q;
  mustTotal : Q;
  canHits : Q;
  canTotal : Q;
  serviceTypes : list string;
  scopeOfWork : JV;
  scopeOfWorkSource : SourceInfo;
  submission : list JV;
  submissionWithSource : list SourceInfo;
  certifications : list string;
  evaluationCriteria : list JV;
  evaluationCriteriaWithSource : list SourceInfo;
  safety : list JV;
  penalties : list string;
  processSteps : list ProcessStep;
  projectDuration : JV;
  economicAnalysis : JV;
  missingEvidence : list JV;
  missingEvidenceWithSource : list SourceInfo;
  sources : TenderSources
}.

Definition missingEvidenceOf (metaSource : JV) (doc : JV) : SourceInfo :=
  {| text := or (get doc "document_de") (get doc "text");
     source_document := or (or (get doc "source_document") metaSource) (JStr "");
     source_chunk_id := nullish (get doc "source_chunk_id") JNull;
     detail := None |}.

(** [Array.prototype.filter] with a predicate that may throw. *)
Fixpoint filterM {A : Type} (p : A -> result bool) (l : list A) : result (list A) :=
  match l with
  | [] => Ok []
  | x :: l' =>
      let* keep := p x in
      let* rest := filterM p l' in
      Ok (if keep : bool then x :: rest else rest)
  end.

Definition keepEvidence (doc : SourceInfo) : result bool :=
  if truthy (text doc)
  then let* placeholder := isPlaceholderAny (text doc) in Ok (negb placeholder)
  else Ok false.

(** [list[0]?.source_document] *)
Definition firstSource (l : list SourceInfo) : JV :=
  match l with
  | [] => JUndef
  | first :: _ => source_document first
  end.

Definition lengthCappedAt5 (l : list JV) : Q :=
  inject_Z (Z.min (Z.of_nat (length l)) 5).

Definition mapSummaryToTender (payload : BatchSummaryPayload) : result Tender :=
  let uiJson := jsonClone (or (ui_json (summary payload)) (JObj [])) in
  let meta := or (get uiJson "meta") (JObj []) in
  let executive := or (get uiJson "executive_summary") (JObj []) in
  let timeline := or (get uiJson "timeline_milestones") (JObj []) in
  let requirements := arrayOrEmpty (get uiJson "mandatory_requirements") in
  let risks := arrayOrEmpty (get uiJson "risks") in
  let serviceTypes := arrayOrEmpty (get uiJson "service_types") in
  let evaluationCriteria := arrayOrEmpty (get uiJson "evaluation_criteria") in
  let safety := arrayOrEmpty (get uiJson "safety_requirements") in
  let penaltiesRaw := arrayOrEmpty (get uiJson "contract_penalties") in
  let certificationsRaw := arrayOrEmpty (get uiJson "certifications_required") in
  let processSteps := arrayOrEmpty (get uiJson "process_steps") in
  let missingEvidence := arrayOrEmpty (get uiJson "missing_evidence_documents") in
  let metaSource := get meta "source_document" in
  let deadline := or (get timeline "submission_deadline_de") JNull in
  let* submissionWithSource := pickTopRequirements requirements metaSource in
  let* legalRisksWithSource := pickTopRisks risks metaSource in
  let* evaluationCriteriaWithSource := pickTopCriteria evaluationCriteria metaSource in
  let* missingEvidenceWithSource :=
    filterM keepEvidence (List.map (missingEvidenceOf metaSource) missingEvidence) in
  let scopeOfWorkSource :=
    {| text := or (get executive "brief_description_de") (JStr "");
       source_document := or (or (get executive "source_document") metaSource) (JStr "");
       source_chunk_id := JNull;
       detail := None |} in
  let* penalties := pickTopStrings penaltiesRaw 5 in
  let* certifications := pickTopStrings certificationsRaw 5 in
  let* timelineSteps := buildTimelineSteps processSteps timeline metaSource in
  let* serviceTypesTop := pickTopStrings serviceTypes 7 in
  Ok {| id := or (or (get meta "tender_id") (run_id (summary payload))) (batchId payload);
        title := or (or (or (get meta "tender_title") (get executive "title_de"))
                        (get meta "tender_id")) (JStr "Missing Title");
        buyer := or (or (get meta "organization") (get executive "organization_de"))
                    (JStr "Missing Organization");
        region := or (get executive "location_de") (JStr "DE");
        deadline := deadline;
        url := "";
        score := 85;
        legalRisks := List.map text legalRisksWithSource;
        legalRisksWithSource := legalRisksWithSource;
        mustHits := lengthCappedAt5 requirements;
        mustTotal := lengthCappedAt5 requirements;
        canHits := 0;
        canTotal := 0;
        serviceTypes := serviceTypesTop;
        scopeOfWork := or (get executive "brief_description_de") (JStr "");
        scopeOfWorkSource := scopeOfWorkSource;
        submission := List.map text submissionWithSource;
        submissionWithSource := submissionWithSource;
        certifications := certifications;
        evaluationCriteria := List.map text evaluationCriteriaWithSource;
        evaluationCriteriaWithSource := evaluationCriteriaWithSource;
        safety := safety;
        penalties := penalties;
        processSteps := timelineSteps;
        projectDuration := or (get timeline "project_duration_de") JNull;
        economicAnalysis := or (get uiJson "economic_analysis") JUndef;
        missingEvidence := List.map text missingEvidenceWithSource;
        missingEvidenceWithSource := missingEvidenceWithSource;
        sources :=
          {| src_title := or metaSource (JStr "");
             src_buyer := or (or metaSource (get executive "source_document")) (JStr "");
             src_mustCriteria := or (or (firstSource submissionWithSource) metaSource) (JStr "");
             src_logistics := or (or (get executive "source_document") metaSource) (JStr "");
             src_deadline := or (or (get timeline "source_document") metaSource) (JStr "");
             src_certifications := or metaSource (JStr "");
             src_scopeOfWork := or (or (get executive "source_document") metaSource) (JStr "");
             src_pricingModel := JStr "";
             src_penalties := or metaSource (JStr "");
             src_evaluationCriteria :=
               or (or (firstSource evaluationCriteriaWithSource) metaSource) (JStr "");
             src_submission := or (or (firstSource submissionWithSource) metaSource) (JStr "");
             src_legalRisks := or (or (firstSource legalRisksWithSource) metaSource) (JStr "") |}
     |}.

(** ** Scorers (source lines 549, 574-595) *)

(** [pct]: [total === 0 ? 0 : Math.round((100 * hits) / total)] *)
Definition pct (hits total : Q) : Z :=
  if Qeq_bool total 0 then 0 else round (100 * hits / total).

(** The ids of [REQUIRED_Q]; the labels and hints are display text. *)
Definition REQUIRED_Q : list string :=
  [ "experience"; "fleetCapacity"; "equipmentTypes"; "logistics"; "operators";
    "maintenance"; "safety"; "emergency" ].

(** [!(answers[id]?.trim())] *)
Definition unanswered (answers : gmap string string) (q : string) : bool :=
  match answers !! q with
  | None => true
  | Some answer => isEmpty (trim answer)
  end.

(** [REQUIRED_Q.filter((q) => !(answers[q.id]?.trim())).length] *)
Definition qMissing (answers : gmap string string) : nat :=
  length (List.filter (unanswered answers) REQUIRED_Q).

Definition computeWinProbability (tender : option Tender) (missingCount : Q)
    (answers : gmap string string) (mustPct : Q) : Z :=
  match tender with
  | None => 0
  | Some tender =>
      let docPenalty := (missingCount * 4)%Q in
      let qPenalty := (inject_Z (Z.of_nat (qMissing answers)) * 3)%Q in
      let base := JsNumber.max 0 (score tender - docPenalty - qPenalty) in
      let mustBoost := round (mustPct * (2 # 10)) in
      Z.max 1 (Z.min 99 (round ((base + inject_Z mustBoost) * (9 # 10) + 5)))
  end.

Definition regionalDepotWords : list string :=
  [ "Hamburg"; "Bremen"; "Hannover"; "Berlin"; "M" ++ u_umlaut ++ "nchen";
    "K" ++ o_umlaut ++ "ln"; "Stuttgart"; "Depot" ].

(** [/Hamburg|Bremen|...|Depot/i.test(fleetStr)]: some alternative occurs in
    the text up to the case of its letters. *)
Definition mentionsRegionalDepot (fleetStr : string) : bool :=
  existsb (fun word => includes (toLowerCase word) (toLowerCase fleetStr))
    regionalDepotWords.

Definition routeFeasibilityScore (distanceKm projectDays : Q) (fleetStr : string) : Z :=
  let regionalDepots := (if mentionsRegionalDepot fleetStr then 1 else 0)%Q in
  let distancePenalty := (JsNumber.max 0 (distanceKm - 50) * (4 # 10))%Q in
  let durationBonus := JsNumber.min 10 (projectDays / 30 * 2) in
  let raw := (100 - distancePenalty + durationBonus + regionalDepots * 8)%Q in
  Z.max 0 (Z.min 100 (round raw)).

(** ** getEconomicText (source lines 348-352) *)

(** [typeof value === "object"] *)
Definition typeofObject (value : JV) : bool :=
  match value with
  | JNull | JArr _ | JObj _ => true
  | _ => false
  end.

Definition getEconomicText (value : JV) : result string :=
  let text := if typeofObject value then get value "text" else value in
  if negb (truthy text) then Ok ""
  else
    let* shown := ToString text in
    if isPlaceholder shown then Ok "" else Ok shown.

(** ** The list of documents (source lines 157-162, 784, 1221-1232, 3303-3304) *)

Inductive DocStatus : Type :=
| present
| missing
| needs_update.

Record DocItem : Type := {
  doc_id : string;
  doc_name : string;
  doc_status : DocStatus;
  doc_notes : option string
}.

(** [status === "present"] *)
Definition isPresent (s : DocStatus) : bool :=
  match s with present => true | _ => false end.

(** [docs.filter((d) => d.status !== "present").length] *)
Definition missingCount (docs : list DocItem) : nat :=
  length (List.filter (fun d => negb (isPresent (doc_status d))) docs).

(** [docs.filter((d) => d.status === "present").length] and [docs.length] *)
Definition readyDocs (docs : list DocItem) : nat :=
  length (List.filter (fun d => isPresent (doc_status d)) docs).

Definition totalDocs (docs : list DocItem) : nat := length docs.

(** The state update of [setDocStatus]: [{ ...d, status }] for the items
    with the given id. *)
Definition setDocStatus (id : string) (status : DocStatus) (prev : list DocItem)
    : list DocItem :=
  List.map (fun d =>
              if String.eqb (doc_id d) id
              then {| doc_id := doc_id d; doc_name := doc_name d;
                      doc_status := status; doc_notes := doc_notes d |}
              else d)
           prev.

Fixpoint uploadsFrom (now : nat -> Z) (idx : nat) (names : list string) : list DocItem :=
  match names with
  | [] => []
  | name :: rest =>
      {| doc_id := "u-" ++ toString (ofZ (now idx)) ++ "-" ++ toString (ofZ (Z.of_nat idx));
         doc_name := name;
         doc_status := present;
         doc_notes := None |} :: uploadsFrom now (S idx) rest
  end.

(** The state update of [handleUpload].  [files] lists the names of the
    chosen files, [None] standing for [null]; [now idx] is what [Date.now()]
    returns when the file at index [idx] is visited. *)
Definition handleUpload (now : nat -> Z) (files : option (list string))
    (prev : list DocItem) : list DocItem :=
  match files with
  | None => prev
  | Some names => (prev ++ uploadsFrom now 0 names)%list
  end.

(** ** What the wizard derives from its state (source lines 775-776, 782-790, 1696) *)

(** The state update of [onKey] for the key pressed. *)
Definition onKey (key : string) (s : Z) : Z :=
  let s := if String.eqb key "ArrowRight" then Z.min 9 (s + 1) else s in
  if String.eqb key "ArrowLeft" then Z.max 1 (s - 1) else s.

(** [pct(selected?.mustHits ?? 0, selected?.mustTotal ?? 0)] *)
Definition mustPct (selected : option Tender) : Z :=
  match selected with
  | Some tender => pct (mustHits tender) (mustTotal tender)
  | None => pct 0 0
  end.

(** [computeWinProbability(selected, missingCount, answers, mustPct)] *)
Definition winProb (selected : option Tender) (docs : list DocItem)
    (answers : gmap string string) : Z :=
  computeWinProbability selected (inject_Z (Z.of_nat (missingCount docs))) answers
    (inject_Z (mustPct selected)).

Definition goNoGo (tender : Tender) : string :=
  if Qle_bool 70 (score tender) && (80 <=? pct (mustHits tender) (mustTotal tender))
  then "GO" else "NO-GO".

(** ** calcPrice and the presets (source lines 164-175, 2551-2592, 2641-2645) *)

Record PricingInput : Type := {
  projectDurationDays : Q;
  equipmentDailyRate : Q;
  deliveryDistance : Q;
  setupCost : Q;
  operatorDailyRate : Q;
  fuelCostPerDay : Q;
  maintenanceCostPerDay : Q;
  insurancePerDay : Q;
  transportCostPerKm : Q;
  marginPct : Q
}.

Record Price : Type := {
  subtotal : Q;
  surcharge : Q;
  margin : Q;
  total : Z;
  equipmentRental : Q;
  transportCosts : Q;
  operatorCosts : Q;
  fuelCosts : Q;
  maintenanceCosts : Q;
  insuranceCosts : Q;
  setupCosts : Q
}.

Definition calcPrice (p : PricingInput) : Price :=
  let equipmentRental := (equipmentDailyRate p * projectDurationDays p)%Q in
  let transportCosts := ((deliveryDistance p * 2) * transportCostPerKm p)%Q in
  let operatorCosts := (operatorDailyRate p * projectDurationDays p)%Q in
  let fuelCosts := (fuelCostPerDay p * projectDurationDays p)%Q in
  let maintenanceCosts := (maintenanceCostPerDay p * projectDurationDays p)%Q in
  let insuranceCosts := (insurancePerDay p * projectDurationDays p)%Q in
  let setupCosts := setupCost p in
  let subtotal :=
    (equipmentRental + transportCosts + operatorCosts + fuelCosts + maintenanceCosts
     + insuranceCosts + setupCosts)%Q in
  let surcharge := 0%Q in
  let margin := ((subtotal * marginPct p) / 100)%Q in
  let total := round (subtotal + margin) in
  {| subtotal := subtotal;
     surcharge := surcharge;
     margin := margin;
     total := total;
     equipmentRental := equipmentRental;
     transportCosts := transportCosts;
     operatorCosts := operatorCosts;
     fuelCosts := fuelCosts;
     maintenanceCosts := maintenanceCosts;
     insuranceCosts := insuranceCosts;
     setupCosts := setupCosts |}.

Inductive Preset : Type :=
| lean
| standard
| premium.

(** [{ ...pricing, marginPct, equipmentDailyRate, operatorDailyRate }] *)
Definition withRates (pricing : PricingInput) (marginPct' equipmentDailyRate'
    operatorDailyRate' : Q) : PricingInput :=
  {| projectDurationDays := projectDurationDays pricing;
     equipmentDailyRate := equipmentDailyRate';
     deliveryDistance := deliveryDistance pricing;
     setupCost := setupCost pricing;
     operatorDailyRate := operatorDailyRate';
     fuelCostPerDay := fuelCostPerDay pricing;
     maintenanceCostPerDay := maintenanceCostPerDay pricing;
     insurancePerDay := insurancePerDay pricing;
     transportCostPerKm := transportCostPerKm pricing;
     marginPct := marginPct' |}.

(** The value [applyPreset] hands to [setPricing]. *)
Definition applyPreset (preset : Preset) (pricing : PricingInput) : PricingInput :=
  match preset with
  | lean => withRates pricing 8 750 0
  | standard => withRates pricing 12 850 320
  | premium => withRates pricing 18 1050 380
  end.

Definition DEFAULT_PRICING : PricingInput :=
  {| projectDurationDays := 150;
     equipmentDailyRate := 850;
     deliveryDistance := 25;
     setupCost := 2500;
     operatorDailyRate := 320;
     fuelCostPerDay := 45;
     maintenanceCostPerDay := 25;
     insurancePerDay := 18;
     transportCostPerKm := 12 # 10;
     marginPct := 12 |}.

(** ** waitForSummary (components/FileUploadZone.tsx, source lines 102-113) *)

(** The loop of [waitForSummary] with [remaining = 5 - attempts] rounds to
    go.  [fetchBatchSummary n] is the outcome of the request sent after [n]
    failed ones: the summary, or [Throw] for a request that fails. *)
Fixpoint waitForSummary_loop {A : Type} (fetchBatchSummary : nat -> result A)
    (remaining attempts : nat) : result A :=
  match remaining with
  | O => Throw
  | S remaining' =>
      match fetchBatchSummary attempts with
      | Ok summary => Ok summary
      | Throw => waitForSummary_loop fetchBatchSummary remaining' (S attempts)
      end
  end.

Definition waitForSummary {A : Type} (fetchBatchSummary : nat -> result A) : result A :=
  waitForSummary_loop fetchBatchSummary 5 0.

(** ** Statements of the specification, in its own words *)

(** A label that is there, as the value handed to [mergeSourceDocuments]. *)
Definition label (l : option string) : JV :=
  match l with
  | Some s => JStr s
  | None => JUndef
  end.

(** The trimmed label, when it is there and not empty. *)
Definition trimmedLabel (l : option string) : option string :=
  match l with
  | Some s => if isEmpty (trim s) then None else Some (trim s)
  | None => None
  end.

(** Section 4.2: the distinct non-empty trimmed labels, in the order given,
    joined by a semicolon and a space. *)
Definition mergedLabels (a b : option string) : string :=
  match trimmedLabel a, trimmedLabel b with
  | None, None => ""
  | Some x, None => x
  | None, Some y => y
  | Some x, Some y => if String.eqb x y then x else x ++ "; " ++ y
  end.

(** A required question has an answer that is not empty once trimmed. *)
Definition answered (answers : gmap string string) (q : string) : Prop :=
  exists answer, answers !! q = Some answer /\ trim answer <> "".

(** The criterion's [weight_percent] is missing, or is the number zero. *)
Definition weightMissingOrZero (crit : JV) : Prop :=
  get crit "weight_percent" = JUndef \/
  get crit "weight_percent" = JNull \/
  exists q, get crit "weight_percent" = JNum q /\ (q == 0)%Q.












(** *** Bundles of placeholders *)








(** ** Test data *)

(** [baseTender] of the [DevTests] component, with the score left open. *)
Definition tenderWithScore (s : Q) : Tender :=
  {| id := JStr "x"; title := JStr "Demo"; buyer := JStr "Buyer";
     region := JStr "DE-SN"; deadline := JStr "2025-12-31"; url := "";
     score := s; legalRisks := []; legalRisksWithSource := [];
     mustHits := 8; mustTotal := 10; canHits := 5; canTotal := 10;
     serviceTypes := ["Unterhaltsreinigung"];
     scopeOfWork := JUndef;
     scopeOfWorkSource :=
       {| text := JUndef; source_document := JUndef; source_chunk_id := JUndef;
          detail := None |};
     submission := []; submissionWithSource := []; certifications := [];
     evaluationCriteria := []; evaluationCriteriaWithSource := [];
     safety := []; penalties := []; processSteps := [];
     projectDuration := JUndef; economicAnalysis := JUndef;
     missingEvidence := []; missingEvidenceWithSource := [];
     sources :=
       {| src_title := JUndef; src_buyer := JUndef; src_mustCriteria := JUndef;
          src_logistics := JUndef; src_deadline := JUndef;
          src_certifications := JUndef; src_scopeOfWork := JUndef;
          src_pricingModel := JUndef; src_penalties := JUndef;
          src_evaluationCriteria := JUndef; src_submission := JUndef;
          src_legalRisks := JUndef |} |}.

Definition baseTender : Tender := tenderWithScore 80.

(** [Object.fromEntries(REQUIRED_Q.map((q) => [q.id, answer]))] *)
Definition answerAll (answer : string) : gmap string string :=
  list_to_map (List.map (fun q => (q, answer)) REQUIRED_Q).

Definition okAnswers : gmap string string := answerAll "ok".

Definition payloadOf (ui : JV) : BatchSummaryPayload :=
  {| batchId := JStr "batch-1";
     summary :=
       {| run_id := JStr "run-1"; ui_json := ui; total_files := JNum 1;
          success_files := JNum 1; failed_files := JNum 0;
          status := JStr "completed" |} |}.



(** A criterion without [weight_percent], one with a weight in words, one
    with a number. *)
Definition preisOhneGewicht : JV := JObj [("criterion_de", JStr "Preis")].

Definition preisHoch : JV :=
  JObj [("criterion_de", JStr "Preis"); ("weight_percent", JStr "hoch")].

Definition qualitaet40 : JV :=
  JObj [("criterion_de", JStr "Qualitaet"); ("weight_percent", JNum 40)].

(** A requirement whose explanation is a placeholder. *)
Definition isoNachweis : JV :=
  JObj [("requirement_de", JStr "Nachweis ISO 9001"); ("explanation_de", JStr "unbekannt")].

Definition isoNachweisInfo : SourceInfo :=
  {| text := JStr "Nachweis ISO 9001";
     source_document := JStr "a.pdf";
     source_chunk_id := JNull;
     detail := Some "unbekannt" |}.

(** Two steps for the preparation bucket, one for none, and a deadline. *)
Definition zweiVorbereitungen : list JV :=
  [ JObj [("title_de", JStr "Planung der Unterlagen")];
    JObj [("title_de", JStr "Vorbereitung Kalkulation")];
    JObj [("title_de", JStr "Sonstiges Treffen")] ].

Definition fristOhneSchritt : JV := JObj [("submission_deadline_de", JStr "2025-12-01")].


(** A risk of medium severity before one of high severity, and one without. *)
Definition mediumThenHigh : list JV :=
  [ JObj [("risk_de", JStr "Verzug"); ("severity", JStr "medium")];
    JObj [("risk_de", JStr "Bussgeld"); ("severity", JStr "High")];
    JObj [("risk_de", JStr "Ohne Stufe")] ].

(** Two risks, the first with a severity that names a member of
    [Object.prototype]. *)
Definition haftungConstructor : JV :=
  JObj [("risk_de", JStr "Haftung"); ("severity", JStr "constructor")].

Definition bussgeldHigh : JV :=
  JObj [("risk_de", JStr "Bussgeld"); ("severity", JStr "high")].

(** The bundle of the first end-to-end scenario of section 8: two risks and
    no other section. *)
Definition sharp_s : string := String (ascii_of_N 223) "".

Definition zweiRisiken : JV :=
  JObj [("risks",
         JArr [ JObj [("risk_de", JStr ("Bu" ++ sharp_s ++ "geld")); ("severity", JStr "high")];
                JObj [("risk_de", JStr ("Versp" ++ a_umlaut ++ "tung"));
                      ("severity", JStr "low")] ])].

(** A process step whose number of days arrives as a number. *)
Definition abgabeIn14Tagen : JV :=
  JObj [("process_steps",
         JArr [JObj [("title_de", JStr "Angebotsabgabe"); ("days_de", JNum 14)]])].

(** ** Notions used by the further properties *)

(** The string is empty or begins with a code unit that is not white space. *)
Definition startsClean (s : string) : bool :=
  match s with
  | EmptyString => true
  | String c _ => negb (isSpace c)
  end.

(** Every code unit of the string is white space. *)
Fixpoint allSpaces (s : string) : bool :=
  match s with
  | EmptyString => true
  | String c s' => isSpace c && allSpaces s'
  end.

(** The key under which a returned record was filed. *)
Definition sourceInfoKey (r : SourceInfo) : string :=
  match text r with
  | JStr s => normalizeText s
  | _ => ""
  end.



(** In a map kept in insertion order every value is filed under its own key,
    no key occurs twice, and [P] holds of every value. *)
Definition filedUnder {V : Type} (key : V -> string) (P : V -> Prop) (m : JsMap.t V) : Prop :=
  NoDup (List.map fst m) /\ Forall (fun kv => fst kv = key (snd kv) /\ P (snd kv)) m.

(** A criterion heavier than [qualitaet40]. *)
Definition preis60 : JV :=
  JObj [("criterion_de", JStr "Preis"); ("weight_percent", JNum 60)].

(** The mandatory requirements [mapSummaryToTender] reads from a payload. *)
Definition mandatoryRequirementsOf (payload : BatchSummaryPayload) : list JV :=
  arrayOrEmpty
    (get (jsonClone (or (ui_json (summary payload)) (JObj []))) "mandatory_requirements").

(** Two documents of the list, one of them out of date. *)
Definition zertifikat : DocItem :=
  {| doc_id := "d-001"; doc_name := "ISO 9001:2015 Zertifikat";
     doc_status := present; doc_notes := None |}.

Definition pruefnachweise : DocItem :=
  {| doc_id := "d-004"; doc_name := "UVV-Pruefnachweise";
     doc_status := needs_update; doc_notes := Some "einige Geraete noch nicht neu geprueft" |}.

(** A bundle with one mandatory requirement and nothing else. *)
Definition nurIsoNachweis : JV :=
  JObj [("mandatory_requirements", JArr [isoNachweis])].

(** * Properties *)

(** ** Conversions of numbers *)

Example toString_12_5 : toString (Fin (25 # 2)) = "12.5".
Proof. reflexivity. Qed.

Example toString_neg : toString (Fin (- (3 # 1))) = "-3".
Proof. reflexivity. Qed.

Example StringToNumber_samples :
  StringToNumber " 40 " = Fin (40 # 1) /\
  StringToNumber "" = Fin 0 /\
  StringToNumber "unbekannt" = NaN /\
  StringToNumber "-Infinity" = NegInf /\
  StringToNumber "0x1F" = Fin (31 # 1) /\
  StringToNumber "hoch" = NaN.
Proof. repeat split; reflexivity. Qed.

(** ** The tests of [DevTests] *)

Example devtest_null_tender : computeWinProbability None 0 ∅ 80 = 0.
Proof. reflexivity. Qed.

Example devtest_sensible_range :
  1 <= computeWinProbability (Some baseTender) 0 okAnswers 80 <= 99.
Proof. vm_compute. split; discriminate. Qed.

Example devtest_docs_missing :
  computeWinProbability (Some baseTender) 5 okAnswers 80
  < computeWinProbability (Some baseTender) 0 okAnswers 80.
Proof. reflexivity. Qed.

Example devtest_unanswered :
  computeWinProbability (Some baseTender) 0 ∅ 80
  < computeWinProbability (Some baseTender) 0 okAnswers 80.
Proof. reflexivity. Qed.

Example devtest_must_boost :
  computeWinProbability (Some baseTender) 0 okAnswers 100
  >= computeWinProbability (Some baseTender) 0 okAnswers 60.
Proof. vm_compute. discriminate. Qed.

(** ** Strings *)

Lemma isEmpty_true (s : string) : isEmpty s = true <-> s = "".
Proof. destruct s; simpl; split; congruence. Qed.

Lemma isEmpty_false (s : string) : isEmpty s = false <-> s <> "".
Proof. destruct s; simpl; split; congruence. Qed.

Lemma length_pos_isEmpty (s : string) :
  (0 <? String.length s)%nat = negb (isEmpty s).
Proof. destruct s; reflexivity. Qed.



Lemma toLowerCase_app (s t : string) :
  toLowerCase (s ++ t) = toLowerCase s ++ toLowerCase t.
Proof. induction s as [|c s IH]; simpl; [reflexivity | rewrite IH; reflexivity]. Qed.



Lemma isPlaceholderAny_string (s : string) :
  isPlaceholderAny (JStr s) = Ok (isPlaceholder s).
Proof. destruct s; reflexivity. Qed.

Example isPlaceholder_samples :
  isPlaceholder "unbekannt" = true /\
  isPlaceholder "  TBD " = true /\
  isPlaceholder "K.A." = true /\
  isPlaceholder "ab" = true /\
  isPlaceholder "" = true /\
  isPlaceholder "Baustelleneinrichtung" = false.
Proof. repeat split; reflexivity. Qed.

(** ** Rounding *)

Lemma round_lower (x : Q) : (inject_Z (round x) <= x + (1 # 2))%Q.
Proof. apply Qfloor_le. Qed.

Lemma round_upper (x : Q) : (x + (1 # 2) < inject_Z (round x) + 1)%Q.
Proof.
  unfold round.
  pose proof (Qlt_floor (x + (1 # 2))) as H.
  rewrite inject_Z_plus in H. exact H.
Qed.

Lemma round_mono (x y : Q) : (x <= y)%Q -> round x <= round y.
Proof. intros H. apply Qfloor_resp_le. lra. Qed.

Lemma round_shift (x y : Q) (k : Z) :
  (x + inject_Z k <= y)%Q -> round x + k <= round y.
Proof.
  intros H.
  pose proof (round_lower x) as Hx.
  pose proof (round_upper y) as Hy.
  assert (inject_Z (round x + k) < inject_Z (round y + 1))%Q as Hlt.
  { rewrite !inject_Z_plus. change (inject_Z 1) with 1%Q. lra. }
  rewrite <- Zlt_Qlt in Hlt. lia.
Qed.

Lemma round_ge (x : Q) (k : Z) : (inject_Z k <= x)%Q -> k <= round x.
Proof.
  intros H.
  pose proof (round_upper x) as Hx.
  assert (inject_Z k < inject_Z (round x + 1))%Q as Hlt.
  { rewrite inject_Z_plus. change (inject_Z 1) with 1%Q. lra. }
  rewrite <- Zlt_Qlt in Hlt. lia.
Qed.

Lemma round_le (x : Q) (k : Z) : (x < inject_Z k + (1 # 2))%Q -> round x <= k.
Proof.
  intros H.
  pose proof (round_lower x) as Hx.
  assert (inject_Z (round x) < inject_Z (k + 1))%Q as Hlt.
  { rewrite inject_Z_plus. change (inject_Z 1) with 1%Q. lra. }
  rewrite <- Zlt_Qlt in Hlt. lia.
Qed.

Lemma max0_spec (x : Q) :
  (0 <= JsNumber.max 0 x /\ x <= JsNumber.max 0 x /\
   (JsNumber.max 0 x <= 0 \/ JsNumber.max 0 x <= x))%Q.
Proof.
  unfold JsNumber.max.
  destruct (Q.max_spec 0 x) as [[H1 H2] | [H1 H2]]; rewrite H2; lra.
Qed.

Lemma max0_mono (x y : Q) : (x <= y -> JsNumber.max 0 x <= JsNumber.max 0 y)%Q.
Proof.
  intros H.
  destruct (max0_spec x) as (? & ? & [?|?]), (max0_spec y) as (? & ? & ?); lra.
Qed.

(** ** Loops and lists *)

Lemma forEachFrom_app {A St : Type} (f : St -> A -> nat -> result St)
    (i : nat) (l1 l2 : list A) (s : St) :
  forEachFrom f i (l1 ++ l2)%list s
  = bind (forEachFrom f i l1 s) (forEachFrom f (i + length l1) l2).
Proof.
  revert i s. induction l1 as [|x l1 IH]; intros i s; simpl.
  - rewrite Nat.add_0_r. reflexivity.
  - destruct (f s x i) as [s'|]; simpl; [|reflexivity].
    rewrite IH. rewrite <- Nat.add_succ_comm. reflexivity.
Qed.

Lemma forEachFrom_index {A St : Type} (f : St -> A -> nat -> result St)
    (i j : nat) (l : list A) (s : St) :
  (forall s x i j, f s x i = f s x j) ->
  forEachFrom f i l s = forEachFrom f j l s.
Proof.
  intros Hf. revert i j s. induction l as [|x l IH]; intros i j s; simpl.
  - reflexivity.
  - rewrite (Hf s x i j). destruct (f s x j); simpl; [apply IH | reflexivity].
Qed.

Lemma forEach_skip {A St : Type} (f : St -> A -> nat -> result St)
    (before after : list A) (x : A) (s : St) :
  (forall s x i j, f s x i = f s x j) ->
  (forall s i, f s x i = Ok s) ->
  forEach f (before ++ x :: after)%list s = forEach f (before ++ after)%list s.
Proof.
  intros Hindex Hskip. unfold forEach. rewrite !forEachFrom_app.
  destruct (forEachFrom f 0 before s) as [s'|]; simpl; [|reflexivity].
  rewrite Hskip. simpl. apply forEachFrom_index. exact Hindex.
Qed.


Lemma mapMiFrom_In {A B : Type} (f : A -> nat -> result B) (l : list A) :
  forall (i : nat) (ys : list B) (y : B),
    mapMiFrom f i l = Ok ys -> In y ys ->
    exists x k, In x l /\ f x k = Ok y.
Proof.
  induction l as [|x l IH]; intros i ys y H Hy; simpl in H.
  - injection H as <-. destruct Hy.
  - destruct (f x i) as [y0|] eqn:Hfx; simpl in H; [|discriminate].
    destruct (mapMiFrom f (S i) l) as [ys0|] eqn:Hrest; simpl in H; [|discriminate].
    injection H as <-. destruct Hy as [<- | Hy].
    + exists x, i. split; [left; reflexivity | exact Hfx].
    + destruct (IH _ _ _ Hrest Hy) as (x' & k & Hin & Hf).
      exists x', k. split; [right; exact Hin | exact Hf].
Qed.


Lemma filter_ext_In' {A : Type} (f g : A -> bool) (l : list A) :
  (forall x, In x l -> f x = g x) -> List.filter f l = List.filter g l.
Proof.
  induction l as [|x l IH]; intros H; simpl; [reflexivity|].
  rewrite (H x (or_introl eq_refl)), IH; [reflexivity|].
  intros y Hy. apply H. right. exact Hy.
Qed.






(** ** Sorting *)

Section SortFacts.
Context {A : Type} (compare : A -> A -> number).

Lemma In_insert (x y : A) (l : list A) :
  In x (insert compare y l) <-> x = y \/ In x l.
Proof.
  induction l as [|z l IH]; simpl.
  - intuition congruence.
  - destruct (notAfter compare y z); simpl; [intuition congruence|].
    rewrite IH. intuition congruence.
Qed.

Lemma In_sort (x : A) (l : list A) : In x (sort compare l) <-> In x l.
Proof.
  induction l as [|y l IH]; simpl; [reflexivity|].
  rewrite In_insert, IH. intuition congruence.
Qed.

Lemma length_insert_sorted (y : A) (l : list A) :
  length (insert compare y l) = S (length l).
Proof.
  induction l as [|z l IH]; simpl; [reflexivity|].
  destruct (notAfter compare y z); simpl; [reflexivity | rewrite IH; reflexivity].
Qed.

Lemma length_sort (l : list A) : length (sort compare l) = length l.
Proof.
  induction l as [|y l IH]; simpl; [reflexivity|].
  rewrite length_insert_sorted, IH. reflexivity.
Qed.

End SortFacts.

Section SortedFacts.
Context {A : Type} (compare : A -> A -> number).
Context (P : A -> Prop) (R : A -> A -> Prop).
Hypothesis R_trans : forall a b c, R a b -> R b c -> R a c.
Hypothesis notAfter_true : forall a b, P a -> P b -> notAfter compare a b = true -> R a b.
Hypothesis notAfter_false : forall a b, P a -> P b -> notAfter compare a b = false -> R b a.




End SortedFacts.


(** ** mergeSourceDocuments *)

Lemma mergeSourceDocuments_labels (a b : option string) :
  mergeSourceDocuments (label a) (label b) = Ok (mergedLabels a b).
Proof.
  unfold mergeSourceDocuments, mergedLabels, trimmedLabel.
  destruct a as [x|], b as [y|]; simpl.
  - destruct x as [|cx x'], y as [|cy y']; simpl; try reflexivity.
    + rewrite length_pos_isEmpty.
      destruct (isEmpty (trim (String cy y'))); reflexivity.
    + rewrite length_pos_isEmpty.
      destruct (isEmpty (trim (String cx x'))); reflexivity.
    + rewrite !length_pos_isEmpty.
      destruct (isEmpty (trim (String cx x'))) eqn:Ex,
               (isEmpty (trim (String cy y'))) eqn:Ey; simpl; try reflexivity.
      unfold JsSet.ofList, JsSet.add, JsSet.has; simpl.
      rewrite String.eqb_sym.
      destruct (String.eqb (trim (String cx x')) (trim (String cy y'))); reflexivity.
  - destruct x as [|cx x']; simpl; try reflexivity.
    rewrite length_pos_isEmpty.
    destruct (isEmpty (trim (String cx x'))); reflexivity.
  - destruct y as [|cy y']; simpl; try reflexivity.
    rewrite length_pos_isEmpty.
    destruct (isEmpty (trim (String cy y'))); reflexivity.
  - reflexivity.
Qed.

(** Claim C9.  For two labels that are strings or left out,
    [mergeSourceDocuments] returns the distinct non-empty trimmed labels in
    the order given, joined by a semicolon and a space; in particular
    ("A","A") gives "A", ("A","B") gives "A; B" and (undefined,"B") gives
    "B". *)
Theorem mergeSourceDocuments_contract :
  (forall a b : option string,
      mergeSourceDocuments (label a) (label b) = Ok (mergedLabels a b)) /\
  mergeSourceDocuments (JStr "A") (JStr "A") = Ok "A" /\
  mergeSourceDocuments (JStr "A") (JStr "B") = Ok "A; B" /\
  mergeSourceDocuments JUndef (JStr "B") = Ok "B".
Proof.
  split; [exact mergeSourceDocuments_labels|].
  repeat split; reflexivity.
Qed.

(** ** pickTopRisks *)





Lemma forEachFrom_invariant {A St : Type} (f : St -> A -> nat -> result St)
    (Px : A -> Prop) (Inv : St -> Prop) (l : list A) :
  (forall s x i s', Inv s -> Px x -> f s x i = Ok s' -> Inv s') ->
  Forall Px l ->
  forall i s s', Inv s -> forEachFrom f i l s = Ok s' -> Inv s'.
Proof.
  intros Hf Hall. induction Hall as [|x l Hx _ IH]; intros i s s' Hs H; simpl in H.
  - injection H as <-. exact Hs.
  - destruct (f s x i) as [s1|] eqn:Hfx; simpl in H; [|discriminate].
    eapply IH; [|exact H]. eapply Hf; eassumption.
Qed.





(** A record without a severity leaves the collected risks as they were. *)
Lemma pickTopRisks_each_no_severity (metaSource risk : JV) (t : string)
    (deduped : JsMap.t RiskEntry) (index : nat) :
  callTrim (or (or (get risk "risk_de") (get risk "text")) (JStr "")) = Ok t ->
  truthy (get risk "severity") = false ->
  pickTopRisks_each metaSource deduped risk index = Ok deduped.
Proof.
  intros Ht Hsev. unfold pickTopRisks_each. rewrite Ht. cbn [bind].
  unfold or at 1. rewrite Hsev. simpl. rewrite !orb_true_r. reflexivity.
Qed.

Example pickTopRisks_high_first :
  pickTopRisks mediumThenHigh (JStr "v.pdf")
  = Ok [ {| text := JStr "Bussgeld"; source_document := JStr "v.pdf";
            source_chunk_id := JNull; detail := None |};
         {| text := JStr "Verzug"; source_document := JStr "v.pdf";
            source_chunk_id := JNull; detail := None |} ].
Proof. reflexivity. Qed.

(** Claim C6 fails on the code.  The severity "constructor" is an unknown
    severity, to be ranked as low, yet the lookup in [severityRank] finds the
    inherited member of that name, the difference of the ranks is [NaN], and
    the pair is ordered by index alone: the record of high severity comes
    second. *)
Theorem pickTopRisks_inherited_rank :
  rankOrOne "constructor" = RankInherited /\
  pickTopRisks [haftungConstructor; bussgeldHigh] JUndef
  = Ok [ {| text := JStr "Haftung"; source_document := JStr "";
            source_chunk_id := JNull; detail := None |};
         {| text := JStr "Bussgeld"; source_document := JStr "";
            source_chunk_id := JNull; detail := None |} ].
Proof. split; reflexivity. Qed.

(** ** pickTopRequirements *)

Lemma pickTopRequirements_loop_In (primarySource : string) (ordered : list Requirement) :
  forall (seen : gset string) (acc : list SourceInfo) (r : SourceInfo),
    In r (pickTopRequirements_loop primarySource ordered seen acc) ->
    In r acc \/
    exists req, In req ordered /\ r = requirementToSourceInfo primarySource req.
Proof.
  induction ordered as [|req rest IH]; intros seen acc r H;
    cbn [pickTopRequirements_loop] in H.
  - left. exact H.
  - destruct (bool_decide _).
    + destruct (IH _ _ _ H) as [Hacc | (req' & Hin & ->)]; [left; exact Hacc|].
      right. exists req'. split; [right; exact Hin | reflexivity].
    + assert (In r (acc ++ [requirementToSourceInfo primarySource req]) ->
              In r acc \/
              exists req0, In req0 (req :: rest) /\
                           r = requirementToSourceInfo primarySource req0) as Hstep.
      { intros Hin. apply in_app_or in Hin as [Hin | [<- | []]]; [left; exact Hin|].
        right. exists req. split; [left; reflexivity | reflexivity]. }
      destruct (5 <=? _)%nat; [apply Hstep; exact H|].
      destruct (IH _ _ _ H) as [Hacc | (req' & Hin & ->)]; [apply Hstep; exact Hacc|].
      right. exists req'. split; [right; exact Hin | reflexivity].
Qed.

(** Claim C4, as amended.  Every record that [pickTopRequirements] returns
    comes from a requirement of the input whose trimmed text is not a
    placeholder, and carries that requirement's trimmed explanation as its
    detail exactly when the explanation is not empty; whether the
    explanation is a placeholder plays no part. *)
Theorem pickTopRequirements_detail (requirements : list JV) (metaSource : JV)
    (out : list SourceInfo) (r : SourceInfo) :
  pickTopRequirements requirements metaSource = Ok out ->
  In r out ->
  exists req t d,
    In req requirements /\
    requirementText req = Ok t /\
    requirementDetail req = Ok d /\
    isPlaceholder t = false /\
    text r = JStr t /\
    detail r = (if isEmpty d then None else Some d).
Proof.
  unfold pickTopRequirements. intros H Hr.
  destruct (callTrim (or metaSource (JStr ""))) as [primarySource|]; simpl in H; [|discriminate].
  destruct (mapMi requirementOf requirements) as [mapped|] eqn:Hmapped; simpl in H; [|discriminate].
  injection H as <-.
  apply pickTopRequirements_loop_In in Hr as [[] | (R & Hin & ->)].
  apply In_sort in Hin. apply filter_In in Hin as [Hin Hkeep].
  destruct (mapMiFrom_In _ _ _ _ _ Hmapped Hin) as (req & k & Hreq & Hof).
  unfold requirementOf in Hof.
  destruct (requirementText req) as [t|] eqn:Ht; simpl in Hof; [|discriminate].
  destruct (requirementDetail req) as [d|] eqn:Hd; simpl in Hof; [|discriminate].
  injection Hof as <-. exists req, t, d.
  unfold keepRequirement in Hkeep. simpl in Hkeep.
  apply andb_true_iff in Hkeep as [_ Hph]. apply negb_true_iff in Hph.
  repeat split; try assumption; reflexivity.
Qed.

Lemma pickTopRequirements_detail_witness :
  pickTopRequirements [isoNachweis] (JStr "a.pdf") = Ok [isoNachweisInfo] /\
  In isoNachweisInfo [isoNachweisInfo] /\
  exists req t d,
    In req [isoNachweis] /\
    requirementText req = Ok t /\
    requirementDetail req = Ok d /\
    isPlaceholder t = false /\
    text isoNachweisInfo = JStr t /\
    detail isoNachweisInfo = (if isEmpty d then None else Some d).
Proof.
  split; [reflexivity|]. split; [left; reflexivity|].
  apply (pickTopRequirements_detail [isoNachweis] (JStr "a.pdf")
           [isoNachweisInfo] isoNachweisInfo).
  - reflexivity.
  - left. reflexivity.
Defined.

(** The claim as first stated fails: the explanation "unbekannt" is a
    placeholder and is attached all the same. *)
Lemma placeholder_detail_attached :
  isPlaceholder "unbekannt" = true /\
  pickTopRequirements [isoNachweis] (JStr "a.pdf") = Ok [isoNachweisInfo] /\
  detail isoNachweisInfo = Some "unbekannt".
Proof. repeat split; reflexivity. Qed.

(** ** pickTopCriteria *)

Lemma criterionWeight_missingOrZero (crit : JV) :
  weightMissingOrZero crit ->
  exists w, criterionWeight crit = Ok w /\ isFinite w && isZero w = true.
Proof.
  unfold criterionWeight.
  intros [-> | [-> | (q & -> & Hq)]]; simpl.
  - exists (Fin 0). split; reflexivity.
  - exists (Fin 0). split; reflexivity.
  - exists (Fin q). split; [reflexivity|]. simpl. apply Qeq_bool_iff. exact Hq.
Qed.

Lemma pickTopCriteria_each_skip (metaSource crit : JV) (t : string) :
  criterionText crit = Ok t ->
  weightMissingOrZero crit ->
  forall seen index, pickTopCriteria_each metaSource seen crit index = Ok seen.
Proof.
  intros Ht Hw seen index. unfold pickTopCriteria_each. rewrite Ht. simpl.
  destruct (isEmpty t || isPlaceholder t); [reflexivity|].
  destruct (criterionWeight_missingOrZero crit Hw) as (w & -> & Hz). simpl.
  rewrite Hz. reflexivity.
Qed.

Lemma pickTopCriteria_skip (before after : list JV) (crit metaSource : JV) (t : string) :
  criterionText crit = Ok t ->
  weightMissingOrZero crit ->
  pickTopCriteria (before ++ crit :: after) metaSource
  = pickTopCriteria (before ++ after) metaSource.
Proof.
  intros Ht Hw. unfold pickTopCriteria.
  rewrite (forEach_skip (pickTopCriteria_each metaSource) before after crit []).
  - reflexivity.
  - reflexivity.
  - intros s i. apply (pickTopCriteria_each_skip metaSource crit t Ht Hw).
Qed.

Lemma pickTopCriteria_keeps_NaN (crit metaSource : JV) (t : string) :
  criterionText crit = Ok t ->
  isPlaceholder t = false ->
  criterionWeight crit = Ok NaN ->
  pickTopCriteria [crit] metaSource
  = Ok [ {| text := JStr t;
            source_document := or (or (get crit "source_document") metaSource) (JStr "");
            source_chunk_id := nullish (get crit "source_chunk_id") JNull;
            detail := None |} ].
Proof.
  intros Ht Hp Hw. unfold pickTopCriteria, forEach. simpl.
  unfold pickTopCriteria_each. rewrite Ht. simpl. rewrite Hp.
  assert (isEmpty t = false) as ->.
  { destruct t; [discriminate Hp | reflexivity]. }
  simpl. rewrite Hw. reflexivity.
Qed.

(** Claim C1, as amended.  A criterion whose [weight_percent] is the number
    zero is dropped, and so is one whose [weight_percent] is missing, since
    the missing weight defaults to zero before the guard: taking such an
    item out of the array leaves the result as it was.  What is kept with
    the bare text is a criterion whose weight converts to [NaN]. *)
Theorem pickTopCriteria_weight_guard :
  (forall (before after : list JV) (crit metaSource : JV) (t : string),
      criterionText crit = Ok t ->
      weightMissingOrZero crit ->
      pickTopCriteria (before ++ crit :: after) metaSource
      = pickTopCriteria (before ++ after) metaSource) /\
  (forall (crit metaSource : JV) (t : string),
      criterionText crit = Ok t ->
      isPlaceholder t = false ->
      criterionWeight crit = Ok NaN ->
      pickTopCriteria [crit] metaSource
      = Ok [ {| text := JStr t;
                source_document :=
                  or (or (get crit "source_document") metaSource) (JStr "");
                source_chunk_id := nullish (get crit "source_chunk_id") JNull;
                detail := None |} ]).
Proof.
  split.
  - exact pickTopCriteria_skip.
  - exact pickTopCriteria_keeps_NaN.
Qed.

Lemma pickTopCriteria_weight_guard_witness :
  (criterionText preisOhneGewicht = Ok "Preis" /\
   weightMissingOrZero preisOhneGewicht /\
   pickTopCriteria ([qualitaet40] ++ preisOhneGewicht :: []) (JStr "lv.pdf")
   = pickTopCriteria ([qualitaet40] ++ []) (JStr "lv.pdf")) /\
  (criterionText preisHoch = Ok "Preis" /\
   isPlaceholder "Preis" = false /\
   criterionWeight preisHoch = Ok NaN /\
   pickTopCriteria [preisHoch] (JStr "lv.pdf")
   = Ok [ {| text := JStr "Preis";
             source_document := JStr "lv.pdf";
             source_chunk_id := JNull;
             detail := None |} ]).
Proof.
  split.
  - split; [reflexivity|]. split; [left; reflexivity|].
    apply (proj1 pickTopCriteria_weight_guard [qualitaet40] [] preisOhneGewicht
             (JStr "lv.pdf") "Preis"); [reflexivity | left; reflexivity].
  - split; [reflexivity|]. split; [reflexivity|]. split; [reflexivity|].
    apply (proj2 pickTopCriteria_weight_guard preisHoch (JStr "lv.pdf") "Preis");
      reflexivity.
Defined.

(** The claim as first stated fails: a criterion with real text and no
    [weight_percent] is alone in the array, so neither the merge of
    duplicates nor the cap applies, and it is not in the result. *)
Lemma missing_weight_dropped :
  get preisOhneGewicht "weight_percent" = JUndef /\
  criterionText preisOhneGewicht = Ok "Preis" /\
  isPlaceholder "Preis" = false /\
  pickTopCriteria [preisOhneGewicht] JUndef = Ok [].
Proof. repeat split; reflexivity. Qed.

(** ** buildTimelineSteps *)






(** The two scenarios of section 8: of two steps for the preparation bucket
    the first is shown, and the deadline fills the submission slot. *)
Example buildTimelineSteps_scenario :
  buildTimelineSteps zweiVorbereitungen fristOhneSchritt (JStr "m.pdf")
  = Ok [ {| step := 1; title_de := "Planung der Unterlagen"; description_de := "";
            days_de := ""; ps_source_document := JStr "m.pdf";
            ps_source_chunk_id := JNull |};
         {| step := 2; title_de := "Angebotsabgabe";
            description_de := "Abgabefrist: 2025-12-01"; days_de := "";
            ps_source_document := JStr "m.pdf"; ps_source_chunk_id := JNull |} ].
Proof. reflexivity. Qed.

(** ** mapSummaryToTender on a bundle of placeholders *)























(** The first end-to-end scenario of section 8. *)
Example mapSummaryToTender_two_risks :
  exists t,
    mapSummaryToTender (payloadOf zweiRisiken) = Ok t /\
    List.map text (legalRisksWithSource t)
    = [ JStr ("Bu" ++ sharp_s ++ "geld"); JStr ("Versp" ++ a_umlaut ++ "tung") ] /\
    title t = JStr "Missing Title".
Proof. eexists. split; [reflexivity|]. split; reflexivity. Qed.

(** Claim C8 fails on the code.  A process step whose [days_de] is the
    number 14 is truthy and has no [trim] to call: the [TypeError] leaves
    [buildTimelineSteps] and [mapSummaryToTender].  [pct] guards its
    division. *)
Theorem mapSummaryToTender_throws :
  buildTimelineSteps (arrayOrEmpty (get abgabeIn14Tagen "process_steps")) (JObj []) JUndef
  = Throw /\
  mapSummaryToTender (payloadOf abgabeIn14Tagen) = Throw /\
  pct 0 0 = 0.
Proof. repeat split; reflexivity. Qed.

(** ** computeWinProbability *)

Lemma unanswered_false (answers : gmap string string) (q : string) :
  unanswered answers q = false <-> answered answers q.
Proof.
  unfold unanswered, answered. destruct (answers !! q) as [a|].
  - rewrite isEmpty_false. split.
    + intros H. exists a. split; [reflexivity | exact H].
    + intros (a' & [= <-] & H). exact H.
  - split; [discriminate | intros (a' & [=] & _)].
Qed.

Lemma mustBoost_80 : round (80 * (2 # 10)) = 16.
Proof. reflexivity. Qed.

Lemma computeWinProbability_range (t : Tender) (missingCount mustPct : Q)
    (answers : gmap string string) :
  1 <= computeWinProbability (Some t) missingCount answers mustPct <= 99.
Proof. unfold computeWinProbability. lia. Qed.

Lemma computeWinProbability_docs_le (t : Tender) (answers : gmap string string) :
  computeWinProbability (Some t) 5 answers 80
  <= computeWinProbability (Some t) 0 answers 80.
Proof.
  unfold computeWinProbability.
  apply Z.max_le_compat_l, Z.min_le_compat_l, round_mono.
  set (p := (inject_Z (Z.of_nat (qMissing answers)) * 3)%Q).
  pose proof (max0_mono (score t - 5 * 4 - p) (score t - 0 * 4 - p)) as H.
  assert (score t - 5 * 4 - p <= score t - 0 * 4 - p)%Q as Hle by lra.
  specialize (H Hle). lra.
Qed.

Lemma computeWinProbability_docs_lt (t : Tender) (answers : gmap string string) :
  (20 + 3 * inject_Z (Z.of_nat (qMissing answers)) <= score t)%Q ->
  (score t <= 100)%Q ->
  computeWinProbability (Some t) 5 answers 80
  < computeWinProbability (Some t) 0 answers 80.
Proof.
  intros Hlo Hhi. unfold computeWinProbability. rewrite mustBoost_80.
  set (p := (inject_Z (Z.of_nat (qMissing answers)) * 3)%Q).
  assert (0 <= p)%Q as Hp.
  { unfold p. assert (0 <= inject_Z (Z.of_nat (qMissing answers)))%Q.
    { change 0%Q with (inject_Z 0). rewrite <- Zle_Qle. lia. }
    lra. }
  assert (20 + p <= score t)%Q as Hlo' by (unfold p; lra).
  destruct (max0_spec (score t - 5 * 4 - p)) as (Ha1 & Ha2 & Ha3).
  destruct (max0_spec (score t - 0 * 4 - p)) as (Hb1 & Hb2 & Hb3).
  set (b5 := JsNumber.max 0 (score t - 5 * 4 - p)) in *.
  set (b0 := JsNumber.max 0 (score t - 0 * 4 - p)) in *.
  assert (b5 <= 80)%Q as Hb5 by (destruct Ha3; lra).
  pose proof (round_shift ((b5 + inject_Z 16) * (9 # 10) + 5)
                          ((b0 + inject_Z 16) * (9 # 10) + 5) 18) as Hshift.
  pose proof (round_le ((b5 + inject_Z 16) * (9 # 10) + 5) 91) as Hle.
  pose proof (round_ge ((b5 + inject_Z 16) * (9 # 10) + 5) 19) as Hge.
  lapply Hshift; [clear Hshift; intros Hshift | unfold inject_Z; destruct Ha3; lra].
  lapply Hle; [clear Hle; intros Hle | unfold inject_Z; lra].
  lapply Hge; [clear Hge; intros Hge | unfold inject_Z; lra].
  lia.
Qed.

(** Claim C3, as amended.  With no tender the result is 0.  With a tender,
    five missing documents never give more than none, and give strictly
    less when the score lies between 20 plus three times the number of
    unanswered required questions and 100; the result lies between 1 and
    99, so 0 occurs for no tender only. *)
Theorem computeWinProbability_properties (t : Tender) (missingCount mustPct : Q)
    (answers : gmap string string) :
  computeWinProbability None missingCount answers mustPct = 0 /\
  computeWinProbability (Some t) 5 answers 80
  <= computeWinProbability (Some t) 0 answers 80 /\
  ((20 + 3 * inject_Z (Z.of_nat (qMissing answers)) <= score t)%Q /\
   (score t <= 100)%Q ->
   computeWinProbability (Some t) 5 answers 80
   < computeWinProbability (Some t) 0 answers 80) /\
  1 <= computeWinProbability (Some t) missingCount answers mustPct <= 99.
Proof.
  split; [reflexivity|]. split; [apply computeWinProbability_docs_le|].
  split; [|apply computeWinProbability_range].
  intros [Hlo Hhi]. apply computeWinProbability_docs_lt; assumption.
Qed.

Lemma computeWinProbability_properties_witness :
  ((20 + 3 * inject_Z (Z.of_nat (qMissing okAnswers)) <= score baseTender)%Q /\
   (score baseTender <= 100)%Q) /\
  computeWinProbability (Some baseTender) 5 okAnswers 80
  < computeWinProbability (Some baseTender) 0 okAnswers 80.
Proof.
  assert ((20 + 3 * inject_Z (Z.of_nat (qMissing okAnswers)) <= score baseTender)%Q /\
          (score baseTender <= 100)%Q) as H.
  { split; vm_compute; discriminate. }
  split; [exact H|].
  apply (proj1 (proj2 (proj2
           (computeWinProbability_properties baseTender 5 80 okAnswers)))).
  exact H.
Defined.

(** The claim as first stated fails: for a tender with score 0 the five
    missing documents change nothing. *)
Lemma docs_missing_not_strict :
  ~ (computeWinProbability (Some (tenderWithScore 0)) 5 okAnswers 80
     < computeWinProbability (Some (tenderWithScore 0)) 0 okAnswers 80).
Proof. vm_compute. discriminate. Qed.

(** Claim C10.  Two maps of answers that agree, for every required
    question, on whether the answer is there and not empty once trimmed give
    the same result for the same tender, count of missing documents and
    percentage. *)
Theorem computeWinProbability_answers_presence
    (tender : option Tender) (missingCount mustPct : Q)
    (answers1 answers2 : gmap string string) :
  (forall q, In q REQUIRED_Q -> answered answers1 q <-> answered answers2 q) ->
  computeWinProbability tender missingCount answers1 mustPct
  = computeWinProbability tender missingCount answers2 mustPct.
Proof.
  intros Hagree.
  assert (qMissing answers1 = qMissing answers2) as Hq.
  { unfold qMissing. f_equal. apply filter_ext_In'. intros q Hq.
    specialize (Hagree q Hq). rewrite <- !unanswered_false in Hagree.
    destruct (unanswered answers1 q), (unanswered answers2 q); try reflexivity.
    - destruct Hagree as [_ H]. apply H. reflexivity.
    - destruct Hagree as [H _]. symmetry. apply H. reflexivity. }
  unfold computeWinProbability. destruct tender; [|reflexivity].
  rewrite Hq. reflexivity.
Qed.

Lemma computeWinProbability_answers_presence_witness :
  (forall q, In q REQUIRED_Q ->
     answered (answerAll "ok") q <-> answered (answerAll " ja, seit 1985 ") q) /\
  computeWinProbability (Some baseTender) 2 (answerAll "ok") 80
  = computeWinProbability (Some baseTender) 2 (answerAll " ja, seit 1985 ") 80.
Proof.
  assert (forall q, In q REQUIRED_Q ->
     answered (answerAll "ok") q <-> answered (answerAll " ja, seit 1985 ") q) as H.
  { intros q Hq. simpl in Hq.
    repeat (destruct Hq as [<- | Hq];
            [split; intros _; eexists; (split; [reflexivity | discriminate])|]).
    destruct Hq. }
  split; [exact H|].
  apply (computeWinProbability_answers_presence (Some baseTender) 2 80 _ _ H).
Defined.

(** ** pct and routeFeasibilityScore *)

Example pct_samples : pct 0 0 = 0 /\ pct 8 10 = 80 /\ pct 1 3 = 33.
Proof. repeat split; reflexivity. Qed.




(** * Further properties of the code *)

(** ** White space and case *)

Lemma isSpace_lowerChar (c : ascii) : isSpace (lowerChar c) = isSpace c.
Proof. destruct c as [[] [] [] [] [] [] [] []]; reflexivity. Qed.

Lemma lowerChar_idempotent (c : ascii) : lowerChar (lowerChar c) = lowerChar c.
Proof. destruct c as [[] [] [] [] [] [] [] []]; reflexivity. Qed.

Lemma toLowerCase_idempotent (s : string) : toLowerCase (toLowerCase s) = toLowerCase s.
Proof.
  induction s as [|c s IH]; simpl; [reflexivity|].
  rewrite lowerChar_idempotent, IH. reflexivity.
Qed.

Lemma toLowerCase_trimStart (s : string) :
  toLowerCase (trimStart s) = trimStart (toLowerCase s).
Proof.
  induction s as [|c s IH]; simpl; [reflexivity|].
  rewrite isSpace_lowerChar. destruct (isSpace c); [exact IH | reflexivity].
Qed.

Lemma toLowerCase_trimEnd (s : string) :
  toLowerCase (trimEnd s) = trimEnd (toLowerCase s).
Proof.
  induction s as [|c s IH]; simpl; [reflexivity|].
  rewrite <- IH, isSpace_lowerChar.
  destruct (trimEnd s); simpl; [destruct (isSpace c)|]; reflexivity.
Qed.

Lemma toLowerCase_trim (s : string) : toLowerCase (trim s) = trim (toLowerCase s).
Proof. unfold trim. rewrite toLowerCase_trimEnd, toLowerCase_trimStart. reflexivity. Qed.

Lemma toLowerCase_collapseFrom (inRun : bool) (s : string) :
  toLowerCase (collapseFrom inRun s) = collapseFrom inRun (toLowerCase s).
Proof.
  revert inRun. induction s as [|c s IH]; intros inRun; simpl; [reflexivity|].
  rewrite isSpace_lowerChar.
  destruct (isSpace c); [destruct inRun|]; simpl; rewrite ?IH; reflexivity.
Qed.

Lemma startsClean_trimStart (s : string) : startsClean (trimStart s) = true.
Proof.
  induction s as [|c s IH]; simpl; [reflexivity|].
  destruct (isSpace c) eqn:Hc; [exact IH | simpl; rewrite Hc; reflexivity].
Qed.

Lemma trimStart_clean (s : string) : startsClean s = true -> trimStart s = s.
Proof.
  destruct s as [|c s]; simpl; [reflexivity|].
  intros H. apply negb_true_iff in H. rewrite H. reflexivity.
Qed.

Lemma startsClean_trimEnd (s : string) :
  startsClean s = true -> startsClean (trimEnd s) = true.
Proof.
  destruct s as [|c s]; simpl; [reflexivity|]. intros H.
  destruct (trimEnd s); simpl; [|exact H].
  apply negb_true_iff in H. rewrite H. simpl. rewrite H. reflexivity.
Qed.

Lemma trimEnd_idempotent (s : string) : trimEnd (trimEnd s) = trimEnd s.
Proof.
  induction s as [|c s IH]; simpl; [reflexivity|].
  destruct (trimEnd s) as [|d r] eqn:Hr.
  - destruct (isSpace c) eqn:Hc; simpl; [reflexivity | rewrite Hc; reflexivity].
  - simpl in *. rewrite IH. reflexivity.
Qed.

Lemma startsClean_trim (s : string) : startsClean (trim s) = true.
Proof. apply startsClean_trimEnd, startsClean_trimStart. Qed.

Lemma trimEnd_trim (s : string) : trimEnd (trim s) = trim s.
Proof. apply trimEnd_idempotent. Qed.

Lemma trim_fixed (s : string) :
  startsClean s = true -> trimEnd s = s -> trim s = s.
Proof. intros Hs He. unfold trim. rewrite (trimStart_clean s Hs). exact He. Qed.

Lemma trim_idempotent (s : string) : trim (trim s) = trim s.
Proof. apply trim_fixed; [apply startsClean_trim | apply trimEnd_trim]. Qed.

(** A string that [trimEnd] leaves alone is a last code unit that is not
    white space, or a longer string whose rest it leaves alone. *)
Lemma trimEnd_fixed_inv (c : ascii) (s : string) :
  trimEnd (String c s) = String c s ->
  (s = "" /\ isSpace c = false) \/ (s <> "" /\ trimEnd s = s).
Proof.
  simpl. destruct (trimEnd s) as [|d r] eqn:Hr.
  - destruct (isSpace c); [discriminate|]. intros [= <-]. left. split; reflexivity.
  - intros [= <-]. right. split; [discriminate | reflexivity].
Qed.

Lemma trimEnd_cons_fixed (c : ascii) (s : string) :
  s <> "" -> trimEnd s = s -> trimEnd (String c s) = String c s.
Proof.
  intros Hne H. simpl. rewrite H. destruct s; [contradiction | reflexivity].
Qed.

Lemma trimEnd_app_fixed (x z : string) :
  z <> "" -> trimEnd z = z -> trimEnd (x ++ z) = x ++ z.
Proof.
  intros Hne Hz. induction x as [|c x IH]; simpl; [exact Hz|].
  change (trimEnd (String c (x ++ z)) = String c (x ++ z)).
  apply trimEnd_cons_fixed; [|exact IH].
  destruct x; simpl; [exact Hne | discriminate].
Qed.

Lemma collapseFrom_nonempty (inRun : bool) (s : string) :
  s <> "" -> trimEnd s = s -> collapseFrom inRun s <> "".
Proof.
  revert inRun. induction s as [|c s IH]; intros inRun Hne H; [contradiction|].
  simpl. destruct (isSpace c) eqn:Hc; [|discriminate].
  destruct (trimEnd_fixed_inv c s H) as [[_ Hc'] | [Hs Hs']]; [congruence|].
  destruct inRun; [apply IH; assumption | discriminate].
Qed.

Lemma trimEnd_collapseFrom (inRun : bool) (s : string) :
  trimEnd s = s -> trimEnd (collapseFrom inRun s) = collapseFrom inRun s.
Proof.
  revert inRun. induction s as [|c s IH]; intros inRun H; [reflexivity|].
  destruct (trimEnd_fixed_inv c s H) as [[-> Hc] | [Hs Hs']].
  - simpl. rewrite Hc. simpl. rewrite Hc. reflexivity.
  - simpl. destruct (isSpace c).
    + destruct inRun; [apply IH; exact Hs'|].
      apply trimEnd_cons_fixed; [apply collapseFrom_nonempty; assumption | apply IH; exact Hs'].
    + apply trimEnd_cons_fixed; [apply collapseFrom_nonempty; assumption | apply IH; exact Hs'].
Qed.

Lemma startsClean_collapseSpaces (s : string) :
  startsClean s = true -> startsClean (collapseSpaces s) = true.
Proof.
  destruct s as [|c s]; simpl; [reflexivity|]. intros H.
  apply negb_true_iff in H. unfold collapseSpaces. simpl. rewrite H. simpl.
  rewrite H. reflexivity.
Qed.

Lemma collapseFrom_idempotent (s : string) :
  (forall inRun, collapseFrom false (collapseFrom inRun s) = collapseFrom inRun s) /\
  collapseFrom true (collapseFrom true s) = collapseFrom true s.
Proof.
  induction s as [|c s [IHf IHt]]; [split; [intros []|]; reflexivity|].
  split; [intros inRun|]; simpl; destruct (isSpace c) eqn:Hc.
  - destruct inRun; [apply IHf|]. simpl. rewrite IHt. reflexivity.
  - simpl. rewrite Hc, IHf. reflexivity.
  - exact IHt.
  - simpl. rewrite Hc, IHf. reflexivity.
Qed.

Lemma collapseSpaces_idempotent (s : string) :
  collapseSpaces (collapseSpaces s) = collapseSpaces s.
Proof. apply (proj1 (collapseFrom_idempotent s)). Qed.

Lemma startsClean_normalizeText (s : string) : startsClean (normalizeText s) = true.
Proof. apply startsClean_collapseSpaces, startsClean_trim. Qed.

Lemma trimEnd_normalizeText (s : string) : trimEnd (normalizeText s) = normalizeText s.
Proof. apply trimEnd_collapseFrom, trimEnd_trim. Qed.

Lemma toLowerCase_normalizeText (s : string) :
  toLowerCase (normalizeText s) = normalizeText s.
Proof.
  unfold normalizeText, collapseSpaces.
  rewrite toLowerCase_collapseFrom, toLowerCase_trim, toLowerCase_idempotent.
  reflexivity.
Qed.

Lemma normalizeText_fixed (s : string) :
  normalizeText (normalizeText s) = normalizeText s.
Proof.
  unfold normalizeText at 1. rewrite toLowerCase_normalizeText.
  rewrite (trim_fixed _ (startsClean_normalizeText s) (trimEnd_normalizeText s)).
  unfold normalizeText. apply collapseSpaces_idempotent.
Qed.

(** Property X1.  [normalizeText] returns a text in normal form: lower case, no white
    space at either end, every run of white space a single space, so that
    normalizing it again changes nothing.  The keys under which the
    selectors merge duplicates are therefore stable. *)
Theorem normalizeText_idempotent (s : string) :
  toLowerCase (normalizeText s) = normalizeText s /\
  trim (normalizeText s) = normalizeText s /\
  collapseSpaces (normalizeText s) = normalizeText s /\
  normalizeText (normalizeText s) = normalizeText s.
Proof.
  split; [apply toLowerCase_normalizeText|].
  split; [apply (trim_fixed _ (startsClean_normalizeText s) (trimEnd_normalizeText s))|].
  split; [unfold normalizeText; apply collapseSpaces_idempotent|].
  apply normalizeText_fixed.
Qed.

Lemma allSpaces_toLowerCase (w : string) : allSpaces (toLowerCase w) = allSpaces w.
Proof.
  induction w as [|c w IH]; simpl; [reflexivity|].
  rewrite isSpace_lowerChar, IH. reflexivity.
Qed.

Lemma trimStart_app_spaces (w s : string) :
  allSpaces w = true -> trimStart (w ++ s) = trimStart s.
Proof.
  induction w as [|c w IH]; simpl; [reflexivity|].
  intros H. apply andb_true_iff in H as [Hc Hw]. rewrite Hc. apply IH. exact Hw.
Qed.

Lemma trimEnd_spaces (w : string) : allSpaces w = true -> trimEnd w = "".
Proof.
  induction w as [|c w IH]; simpl; [reflexivity|].
  intros H. apply andb_true_iff in H as [Hc Hw]. rewrite (IH Hw), Hc. reflexivity.
Qed.

Lemma trimEnd_app_spaces (s w : string) :
  allSpaces w = true -> trimEnd (s ++ w) = trimEnd s.
Proof.
  intros Hw. induction s as [|c s IH]; simpl; [apply trimEnd_spaces; exact Hw|].
  rewrite IH. reflexivity.
Qed.

Lemma startsClean_app (s t : string) :
  s <> "" -> startsClean s = true -> startsClean (s ++ t) = true.
Proof. destruct s; simpl; [contradiction | intros _ H; exact H]. Qed.

(** A text between two stretches of white space trims to itself when it is
    not empty, begins clean and ends clean. *)
Lemma trim_padded (before s after : string) :
  allSpaces before = true -> allSpaces after = true ->
  s <> "" -> startsClean s = true -> trimEnd s = s ->
  trim (before ++ s ++ after) = s.
Proof.
  intros Hb Ha Hne Hs He. unfold trim.
  rewrite (trimStart_app_spaces before _ Hb).
  rewrite (trimStart_clean _ (startsClean_app s after Hne Hs)).
  rewrite (trimEnd_app_spaces s after Ha). exact He.
Qed.

Lemma JsSet_has_In (x : string) (s : JsSet.t) : JsSet.has x s = true <-> In x s.
Proof.
  unfold JsSet.has. rewrite existsb_exists. split.
  - intros (y & Hy & Heq). apply String.eqb_eq in Heq as ->. exact Hy.
  - intros H. exists x. split; [exact H | apply String.eqb_refl].
Qed.

Lemma PLACEHOLDERS_normalized :
  Forall (fun p => p <> "" /\ startsClean p = true /\ trimEnd p = p /\ collapseSpaces p = p)
         PLACEHOLDERS.
Proof. repeat constructor; discriminate. Qed.

(** Property X2.  Every entry of the vocabulary is a placeholder in whatever case its
    letters are written and whatever white space surrounds it. *)
Theorem isPlaceholder_vocabulary (p s before after : string) :
  In p PLACEHOLDERS ->
  toLowerCase s = p ->
  allSpaces before = true ->
  allSpaces after = true ->
  isPlaceholder (before ++ s ++ after) = true.
Proof.
  intros Hin Hs Hb Ha. unfold isPlaceholder.
  destruct (isEmpty (before ++ s ++ after)); [reflexivity|].
  pose proof PLACEHOLDERS_normalized as Hnorm.
  rewrite Forall_forall in Hnorm.
  destruct (Hnorm p (proj2 (list_elem_of_In _ _) Hin)) as (Hne & Hclean & Hend & Hcollapse).
  assert (normalizeText (before ++ s ++ after) = p) as ->.
  { unfold normalizeText. rewrite !toLowerCase_app, Hs.
    rewrite trim_padded; try assumption; rewrite allSpaces_toLowerCase; assumption. }
  apply orb_true_iff. right. apply JsSet_has_In. exact Hin.
Qed.

Lemma isPlaceholder_vocabulary_witness :
  In "k.a." PLACEHOLDERS /\
  toLowerCase "K.A." = "k.a." /\
  allSpaces "  " = true /\
  allSpaces " " = true /\
  isPlaceholder ("  " ++ "K.A." ++ " ") = true.
Proof.
  assert (In "k.a." PLACEHOLDERS) as Hin by (vm_compute; tauto).
  split; [exact Hin|]. split; [reflexivity|]. split; [reflexivity|]. split; [reflexivity|].
  apply (isPlaceholder_vocabulary "k.a." "K.A." "  " " " Hin); reflexivity.
Defined.

(** Property X3.  A text and the key it is filed under agree on being a placeholder. *)
Theorem isPlaceholder_normalizeText (s : string) :
  isPlaceholder (normalizeText s) = isPlaceholder s.
Proof.
  unfold isPlaceholder. rewrite normalizeText_fixed.
  destruct s as [|c s]; [reflexivity|]. cbn [isEmpty].
  destruct (normalizeText (String c s)); reflexivity.
Qed.

(** ** mergeSourceDocuments, once more *)

Lemma length_append (s t : string) :
  String.length (s ++ t) = (String.length s + String.length t)%nat.
Proof. induction s as [|c s IH]; simpl; [reflexivity | rewrite IH; reflexivity]. Qed.

Lemma append_length_ne (x y : string) : (x ++ "; " ++ y) <> y.
Proof.
  intros H. apply (f_equal String.length) in H.
  rewrite !length_append in H. simpl in H. lia.
Qed.

Lemma trim_joined (x y : string) :
  x <> "" -> y <> "" -> trim x = x -> trim y = y ->
  trim (x ++ "; " ++ y) = x ++ "; " ++ y.
Proof.
  intros Hx Hy Htx Hty. apply trim_fixed.
  - apply startsClean_app; [exact Hx|]. rewrite <- Htx. apply startsClean_trim.
  - apply trimEnd_app_fixed.
    + discriminate.
    + apply (trimEnd_app_fixed "; " y Hy). rewrite <- Hty. apply trimEnd_trim.
Qed.

(** Property X4.  The merge compares its two arguments only and does not look inside a
    label that an earlier merge has joined: a third record of the same text
    from the second document repeats that document in the label. *)
Theorem mergeSourceDocuments_repeats (a b : string) :
  trim a <> "" ->
  trim b <> "" ->
  trim a <> trim b ->
  mergeSourceDocuments (JStr a) (JStr b) = Ok (trim a ++ "; " ++ trim b) /\
  mergeSourceDocuments (JStr (trim a ++ "; " ++ trim b)) (JStr b)
  = Ok ((trim a ++ "; " ++ trim b) ++ "; " ++ trim b).
Proof.
  intros Ha Hb Hab. split.
  - pose proof (mergeSourceDocuments_labels (Some a) (Some b)) as H.
    cbn [label] in H. rewrite H. clear H.
    unfold mergedLabels, trimmedLabel.
    rewrite (proj2 (isEmpty_false _) Ha), (proj2 (isEmpty_false _) Hb).
    rewrite (proj2 (String.eqb_neq _ _) Hab). reflexivity.
  - pose proof (mergeSourceDocuments_labels (Some (trim a ++ "; " ++ trim b)) (Some b))
      as H.
    cbn [label] in H. rewrite H. clear H.
    unfold mergedLabels, trimmedLabel.
    rewrite (trim_joined (trim a) (trim b) Ha Hb (trim_idempotent a) (trim_idempotent b)).
    rewrite (proj2 (isEmpty_false _) Hb).
    assert (isEmpty (trim a ++ "; " ++ trim b) = false) as ->.
    { apply isEmpty_false. destruct (trim a); [contradiction | discriminate]. }
    rewrite (proj2 (String.eqb_neq _ _) (append_length_ne (trim a) (trim b))).
    reflexivity.
Qed.

Lemma mergeSourceDocuments_repeats_witness :
  trim "lv.pdf" <> "" /\
  trim " vertrag.pdf" <> "" /\
  trim "lv.pdf" <> trim " vertrag.pdf" /\
  mergeSourceDocuments (JStr "lv.pdf") (JStr " vertrag.pdf") = Ok "lv.pdf; vertrag.pdf" /\
  mergeSourceDocuments (JStr "lv.pdf; vertrag.pdf") (JStr " vertrag.pdf")
  = Ok "lv.pdf; vertrag.pdf; vertrag.pdf".
Proof.
  assert (trim "lv.pdf" <> "") as H1 by discriminate.
  assert (trim " vertrag.pdf" <> "") as H2 by discriminate.
  assert (trim "lv.pdf" <> trim " vertrag.pdf") as H3 by discriminate.
  split; [exact H1|]. split; [exact H2|]. split; [exact H3|].
  exact (mergeSourceDocuments_repeats "lv.pdf" " vertrag.pdf" H1 H2 H3).
Defined.

(** ** Maps in insertion order *)

Section MapFacts.
Context {V : Type} (key : V -> string) (P : V -> Prop).

Lemma JsMap_get_None (k : string) (m : JsMap.t V) :
  JsMap.get k m = None <-> ~ In k (List.map fst m).
Proof.
  induction m as [|[k' v] m IH]; simpl; [tauto|].
  destruct (String.eqb_spec k k') as [-> | Hne].
  - split; [discriminate | intros H; exfalso; apply H; left; reflexivity].
  - rewrite IH. split; [intros H [Heq | Hin]; [congruence | contradiction] | tauto].
Qed.

Lemma JsMap_has_false (k : string) (m : JsMap.t V) :
  JsMap.has k m = false <-> JsMap.get k m = None.
Proof. unfold JsMap.has. destruct (JsMap.get k m); split; congruence. Qed.

Lemma JsMap_set_new (k : string) (v : V) (m : JsMap.t V) :
  JsMap.get k m = None -> JsMap.set k v m = (m ++ [(k, v)])%list.
Proof.
  induction m as [|[k' v'] m IH]; simpl; [reflexivity|].
  destruct (String.eqb k k'); [discriminate|]. intros H. rewrite (IH H). reflexivity.
Qed.

Lemma filed_set_new (k : string) (v : V) (m : JsMap.t V) :
  filedUnder key P m -> JsMap.get k m = None -> k = key v -> P v -> filedUnder key P (JsMap.set k v m).
Proof.
  intros [Hnodup Hall] Hget Hk Hv. rewrite (JsMap_set_new k v m Hget). split.
  - rewrite map_app. simpl. apply NoDup_app. split; [exact Hnodup|]. split.
    + intros x Hx Hx'. apply list_elem_of_In in Hx. apply list_elem_of_In in Hx'.
      destruct Hx' as [<- | []]. apply JsMap_get_None in Hget. contradiction.
    + apply NoDup_singleton.
  - apply Forall_app. split; [exact Hall|]. constructor; [|constructor].
    simpl. split; assumption.
Qed.


Lemma filed_values (m : JsMap.t V) :
  filedUnder key P m -> NoDup (List.map key (JsMap.values m)) /\ Forall P (JsMap.values m).
Proof.
  intros [Hnodup Hall]. unfold JsMap.values.
  assert (List.map key (List.map snd m) = List.map fst m) as ->.
  { clear Hnodup. induction Hall as [|[k v] m [Hk _] _ IH]; simpl; [reflexivity|].
    simpl in Hk. rewrite IH, Hk. reflexivity. }
  split; [exact Hnodup|].
  clear Hnodup. induction Hall as [|[k v] m [_ Hv] _ IH]; simpl; constructor; assumption.
Qed.


Lemma filed_empty : filedUnder key P [].
Proof. split; constructor. Qed.
End MapFacts.

(** ** Sorting rearranges *)




Lemma callTrim_inv (v : JV) (t : string) :
  callTrim v = Ok t -> exists s, v = JStr s /\ t = trim s.
Proof. destruct v; try discriminate. intros [= <-]. eexists. split; reflexivity. Qed.

Lemma callTrim_trimmed (v : JV) (t : string) : callTrim v = Ok t -> trim t = t.
Proof. intros H. destruct (callTrim_inv v t H) as (s & _ & ->). apply trim_idempotent. Qed.

Lemma forEach_invariant {A St : Type} (f : St -> A -> nat -> result St)
    (Inv : St -> Prop) (l : list A) (s s' : St) :
  (forall s x i s', Inv s -> f s x i = Ok s' -> Inv s') ->
  Inv s -> forEach f l s = Ok s' -> Inv s'.
Proof.
  intros Hf Hs H.
  apply (forEachFrom_invariant f (fun _ => True) Inv l) with (i := 0%nat) (s := s).
  - intros s0 x i s0' Hs0 _ Hstep. eapply Hf; eassumption.
  - apply Forall_forall. intros; exact I.
  - exact Hs.
  - exact H.
Qed.

(** ** pickTopStrings *)

(** Property X5.  [pickTopStrings] returns at most [limit] texts, each trimmed and none a
    placeholder, no two of them equal once normalized. *)
Theorem pickTopStrings_invariants (items : list JV) (limit : nat) (out : list string) :
  pickTopStrings items limit = Ok out ->
  (length out <= limit)%nat /\
  NoDup (List.map normalizeText out) /\
  Forall (fun v => isPlaceholder v = false /\ trim v = v) out.
Proof.
  unfold pickTopStrings.
  destruct (forEach pickTopStrings_each items []) as [deduped|] eqn:Hloop;
    cbn [bind]; [|discriminate].
  intros [= <-].
  assert (filedUnder normalizeText (fun v => isPlaceholder v = false /\ trim v = v) deduped)
    as Hfiled.
  { apply (forEach_invariant pickTopStrings_each _ items [] deduped);
      [| apply filed_empty | exact Hloop].
    intros m item i m' Hm. unfold pickTopStrings_each.
    destruct (callTrim _) as [t|] eqn:Ht; cbn [bind]; [|discriminate].
    destruct (isEmpty t || isPlaceholder t) eqn:Hskip; [intros [= <-]; exact Hm|].
    apply orb_false_iff in Hskip as [_ Hph].
    destruct (JsMap.has (normalizeText t) m) eqn:Hhas; intros [= <-]; [exact Hm|].
    apply filed_set_new; [exact Hm | apply JsMap_has_false; exact Hhas | reflexivity|].
    split; [exact Hph | apply (callTrim_trimmed _ _ Ht)]. }
  destruct (filed_values _ _ _ Hfiled) as [Hnodup Hall].
  split; [rewrite length_take; lia|]. split.
  - change (List.map normalizeText (take limit (JsMap.values deduped)))
      with (normalizeText <$> take limit (JsMap.values deduped)).
    rewrite fmap_take. eapply sublist_NoDup; [exact Hnodup | apply sublist_take].
  - apply Forall_take. exact Hall.
Qed.

Lemma pickTopStrings_invariants_witness :
  pickTopStrings [JStr " ISO 9001 "; JStr "iso  9001"; JStr "n/a"; JObj [("text", JStr "SCC")]] 5
  = Ok ["ISO 9001"; "SCC"] /\
  (length ["ISO 9001"; "SCC"] <= 5)%nat /\
  NoDup (List.map normalizeText ["ISO 9001"; "SCC"]) /\
  Forall (fun v => isPlaceholder v = false /\ trim v = v) ["ISO 9001"; "SCC"].
Proof.
  split; [reflexivity|].
  apply (pickTopStrings_invariants
           [JStr " ISO 9001 "; JStr "iso  9001"; JStr "n/a"; JObj [("text", JStr "SCC")]] 5).
  reflexivity.
Defined.

(** ** pickTopRisks, whatever the severities *)




(** ** pickTopCriteria, the records it returns *)










Example pickTopCriteria_heaviest_first :
  pickTopCriteria [qualitaet40; preis60] (JStr "lv.pdf")
  = Ok [ {| text := JStr "Preis (60%)"; source_document := JStr "lv.pdf";
            source_chunk_id := JNull; detail := None |};
         {| text := JStr "Qualitaet (40%)"; source_document := JStr "lv.pdf";
            source_chunk_id := JNull; detail := None |} ].
Proof. reflexivity. Qed.

(** ** pickTopRequirements, the records it returns *)

Lemma sourceInfoKey_requirement (primarySource : string) (req : Requirement) :
  sourceInfoKey (requirementToSourceInfo primarySource req) = normalizeText (req_text req).
Proof. reflexivity. Qed.

Lemma pickTopRequirements_loop_invariants (primarySource : string)
    (ordered : list Requirement) :
  forall (seen : gset string) (acc : list SourceInfo),
    (length acc < 5)%nat ->
    NoDup (List.map sourceInfoKey acc) ->
    (forall r, In r acc -> sourceInfoKey r ∈ seen) ->
    let out := pickTopRequirements_loop primarySource ordered seen acc in
    (length out <= 5)%nat /\ NoDup (List.map sourceInfoKey out).
Proof.
  induction ordered as [|req rest IH]; intros seen acc Hlen Hnodup Hseen;
    cbn [pickTopRequirements_loop]; cbv zeta.
  - split; [lia | exact Hnodup].
  - destruct (bool_decide (normalizeText (req_text req) ∈ seen)) eqn:Hmember.
    + apply IH; assumption.
    + apply bool_decide_eq_false in Hmember.
      assert (NoDup (List.map sourceInfoKey
                       (acc ++ [requirementToSourceInfo primarySource req]))) as Hnodup'.
      { rewrite map_app. cbn [List.map]. rewrite sourceInfoKey_requirement.
        apply NoDup_app. split; [exact Hnodup|]. split.
        - intros k Hk Hk'. apply list_elem_of_In in Hk. apply list_elem_of_In in Hk'.
          destruct Hk' as [Hk' | []]. subst k.
          apply in_map_iff in Hk as (r & Hr & Hin). apply Hmember.
          rewrite <- Hr. apply Hseen. exact Hin.
        - apply NoDup_singleton. }
      destruct (5 <=? length (acc ++ [requirementToSourceInfo primarySource req]))%nat
        eqn:Hfull.
      * split; [rewrite length_app; simpl; lia | exact Hnodup'].
      * apply Nat.leb_gt in Hfull. apply IH; [exact Hfull | exact Hnodup'|].
        intros r Hr. apply in_app_or in Hr as [Hr | [<- | []]].
        -- apply elem_of_union_r. apply Hseen. exact Hr.
        -- apply elem_of_union_l. apply elem_of_singleton. reflexivity.
Qed.

(** Property X10.  [pickTopRequirements] returns at most five records and no two under the
    same normalized text. *)
Theorem pickTopRequirements_invariants (requirements : list JV) (metaSource : JV)
    (out : list SourceInfo) :
  pickTopRequirements requirements metaSource = Ok out ->
  (length out <= 5)%nat /\ NoDup (List.map sourceInfoKey out).
Proof.
  unfold pickTopRequirements.
  destruct (callTrim _) as [primarySource|]; cbn [bind]; [|discriminate].
  destruct (mapMi requirementOf requirements) as [mapped|]; cbn [bind]; [|discriminate].
  intros [= <-].
  apply pickTopRequirements_loop_invariants; [simpl; lia | constructor | intros r []].
Qed.

Lemma pickTopRequirements_invariants_witness :
  exists out,
    pickTopRequirements [isoNachweis; isoNachweis] (JStr "a.pdf") = Ok out /\
    (length out <= 5)%nat /\ NoDup (List.map sourceInfoKey out).
Proof.
  eexists. split; [reflexivity|].
  exact (pickTopRequirements_invariants [isoNachweis; isoNachweis] (JStr "a.pdf") _ eq_refl).
Defined.

(** ** buildTimelineSteps, the numbering *)

Lemma numberSteps_numbers (from : nat) (l : list TimelineStep) :
  List.map step (numberSteps from l) = seq (from + 1) (length l) /\
  length (numberSteps from l) = length l.
Proof.
  revert from. induction l as [|s l IH]; intros from; simpl; [split; reflexivity|].
  destruct (IH (S from)) as [IH1 IH2]. rewrite IH1, IH2.
  replace (S from + 1)%nat with (S (from + 1)) by lia. split; reflexivity.
Qed.

(** Property X11.  [buildTimelineSteps] returns at most six steps, numbered 1, 2, 3, ...
    without a gap. *)
Theorem buildTimelineSteps_numbering (steps : list JV) (timeline metaSource : JV)
    (out : list ProcessStep) :
  buildTimelineSteps steps timeline metaSource = Ok out ->
  (length out <= 6)%nat /\ List.map step out = seq 1 (length out).
Proof.
  unfold buildTimelineSteps.
  destruct (mapMi _ steps) as [mapped|]; cbn [bind]; [|discriminate].
  destruct (synthesizeSubmission _ _ _) as [bucketed|]; cbn [bind]; [|discriminate].
  intros [= <-].
  match goal with
  | |- context [numberSteps 0 ?l] =>
      destruct (numberSteps_numbers 0 l) as [Hsteps Hlen];
      assert (length l <= 6)%nat as Hcap by (rewrite length_take; lia)
  end.
  rewrite Hsteps, Hlen. split; [exact Hcap | reflexivity].
Qed.

Lemma buildTimelineSteps_numbering_witness :
  exists out,
    buildTimelineSteps zweiVorbereitungen fristOhneSchritt (JStr "m.pdf") = Ok out /\
    (length out <= 6)%nat /\ List.map step out = seq 1 (length out).
Proof.
  eexists. split; [reflexivity|].
  exact (buildTimelineSteps_numbering zweiVorbereitungen fristOhneSchritt (JStr "m.pdf")
           _ eq_refl).
Defined.

(** ** pct *)

Lemma pct_full (total : Q) : ~ (total == 0)%Q -> pct total total = 100.
Proof.
  intros Hne. unfold pct.
  destruct (Qeq_bool total 0) eqn:Hz; [apply Qeq_bool_iff in Hz; contradiction|].
  assert (100 * total / total == 100)%Q as H by (field; exact Hne).
  unfold round. rewrite H. reflexivity.
Qed.

Lemma pct_none (hits : Q) : pct hits 0 = 0.
Proof. reflexivity. Qed.

(** Property X14.  [pct] is a percentage, from 0 to 100, when the hits are counted among
    the total; it is 100 when every one of a positive total is hit. *)
Theorem pct_range (hits total : Q) :
  (0 <= hits)%Q -> (hits <= total)%Q ->
  0 <= pct hits total <= 100 /\
  ((hits == total)%Q -> (0 < total)%Q -> pct hits total = 100).
Proof.
  intros Hlo Hhi. split.
  - unfold pct. destruct (Qeq_bool total 0) eqn:Hz; [lia|].
    apply Qeq_bool_neq in Hz.
    assert (0 < total)%Q as Hpos by lra.
    assert (0 <= 100 * hits / total)%Q as H0.
    { apply Qle_shift_div_l; [exact Hpos | lra]. }
    assert (100 * hits / total <= 100)%Q as H100.
    { apply Qle_shift_div_r; [exact Hpos | lra]. }
    split.
    + apply round_ge. unfold inject_Z. lra.
    + apply round_le. unfold inject_Z. lra.
  - intros Heq Hpos. unfold pct.
    destruct (Qeq_bool total 0) eqn:Hz.
    + apply Qeq_bool_iff in Hz. lra.
    + assert (100 * hits / total == 100)%Q as H.
      { rewrite Heq. field. lra. }
      unfold round. rewrite H. reflexivity.
Qed.

Lemma pct_range_witness :
  ((0 <= 8)%Q /\ (8 <= 10)%Q) /\ 0 <= pct 8 10 <= 100.
Proof.
  assert ((0 <= 8)%Q /\ (8 <= 10)%Q) as H by (split; vm_compute; discriminate).
  split; [exact H|].
  exact (proj1 (pct_range 8 10 (proj1 H) (proj2 H))).
Defined.

(** ** computeWinProbability, one argument at a time *)

Lemma inject_nat_le (m n : nat) :
  (m <= n)%nat -> (inject_Z (Z.of_nat m) <= inject_Z (Z.of_nat n))%Q.
Proof. intros H. rewrite <- Zle_Qle. lia. Qed.

Lemma computeWinProbability_mono (t : Tender) (missing1 missing2 mustPct1 mustPct2 : Q)
    (answers1 answers2 : gmap string string) :
  (missing1 <= missing2)%Q ->
  (qMissing answers1 <= qMissing answers2)%nat ->
  (mustPct2 <= mustPct1)%Q ->
  computeWinProbability (Some t) missing2 answers2 mustPct2
  <= computeWinProbability (Some t) missing1 answers1 mustPct1.
Proof.
  intros Hm Hq Hp. unfold computeWinProbability.
  apply Z.max_le_compat_l, Z.min_le_compat_l, round_mono.
  apply inject_nat_le in Hq.
  set (q1 := inject_Z (Z.of_nat (qMissing answers1))) in *.
  set (q2 := inject_Z (Z.of_nat (qMissing answers2))) in *.
  assert (score t - missing2 * 4 - q2 * 3 <= score t - missing1 * 4 - q1 * 3)%Q as Hbase by lra.
  apply max0_mono in Hbase.
  assert (round (mustPct2 * (2 # 10)) <= round (mustPct1 * (2 # 10))) as Hboost.
  { apply round_mono. lra. }
  rewrite Zle_Qle in Hboost.
  set (b1 := inject_Z (round (mustPct1 * (2 # 10)))) in *.
  set (b2 := inject_Z (round (mustPct2 * (2 # 10)))) in *.
  lra.
Qed.

(** Property X15.  For one tender the result never falls when fewer documents are missing,
    fewer required questions are open and the percentage of the mandatory
    criteria is higher. *)
Theorem computeWinProbability_monotone (t : Tender)
    (missing1 missing2 mustPct1 mustPct2 : Q) (answers1 answers2 : gmap string string) :
  (missing1 <= missing2)%Q ->
  (qMissing answers1 <= qMissing answers2)%nat ->
  (mustPct2 <= mustPct1)%Q ->
  computeWinProbability (Some t) missing2 answers2 mustPct2
  <= computeWinProbability (Some t) missing1 answers1 mustPct1.
Proof. apply computeWinProbability_mono. Qed.

Lemma computeWinProbability_monotone_witness :
  ((1 <= 3)%Q /\ (qMissing okAnswers <= qMissing ∅)%nat /\ (60 <= 100)%Q) /\
  computeWinProbability (Some baseTender) 3 ∅ 60
  <= computeWinProbability (Some baseTender) 1 okAnswers 100.
Proof.
  assert ((1 <= 3)%Q /\ (qMissing okAnswers <= qMissing ∅)%nat /\ (60 <= 100)%Q) as H.
  { split; [vm_compute; discriminate|]. split; [vm_compute; lia | vm_compute; discriminate]. }
  split; [exact H|].
  exact (computeWinProbability_monotone baseTender 1 3 100 60 okAnswers ∅
           (proj1 H) (proj1 (proj2 H)) (proj2 (proj2 H))).
Defined.

Lemma filter_length_le {A : Type} (p q : A -> bool) (l : list A) :
  (forall x, In x l -> p x = true -> q x = true) ->
  (length (List.filter p l) <= length (List.filter q l))%nat.
Proof.
  induction l as [|x l IH]; intros H; simpl; [lia|].
  assert (length (List.filter p l) <= length (List.filter q l))%nat as IH'.
  { apply IH. intros y Hy. apply H. right. exact Hy. }
  destruct (p x) eqn:Hp.
  - rewrite (H x (or_introl eq_refl) Hp). simpl. lia.
  - destruct (q x); simpl; lia.
Qed.

Lemma unanswered_insert (answers : gmap string string) (q k a : string) :
  trim a <> "" ->
  unanswered (<[k := a]> answers) q = true -> unanswered answers q = true.
Proof.
  intros Ha. unfold unanswered.
  destruct (decide (k = q)) as [->|Hne].
  - rewrite lookup_insert_eq. intros H. apply isEmpty_true in H. contradiction.
  - rewrite lookup_insert_ne by exact Hne. tauto.
Qed.

Lemma qMissing_insert (answers : gmap string string) (k a : string) :
  trim a <> "" -> (qMissing (<[k := a]> answers) <= qMissing answers)%nat.
Proof.
  intros Ha. unfold qMissing. apply filter_length_le.
  intros q _. apply unanswered_insert. exact Ha.
Qed.

(** Property X16.  Writing an answer that is not blank into the form, for whatever
    question, never lowers the result. *)
Theorem computeWinProbability_answering (tender : option Tender) (missing percent : Q)
    (answers : gmap string string) (k a : string) :
  trim a <> "" ->
  computeWinProbability tender missing answers percent
  <= computeWinProbability tender missing (<[k := a]> answers) percent.
Proof.
  intros Ha. destruct tender as [t|]; [|reflexivity].
  apply computeWinProbability_mono; [lra | apply qMissing_insert; exact Ha | lra].
Qed.

Lemma computeWinProbability_answering_witness :
  trim " 12 Bagger " <> "" /\
  computeWinProbability (Some baseTender) 0 ∅ 80
  <= computeWinProbability (Some baseTender) 0 (<["fleetCapacity" := " 12 Bagger "]> ∅) 80.
Proof.
  assert (trim " 12 Bagger " <> "") as H by (vm_compute; discriminate).
  split; [exact H|].
  exact (computeWinProbability_answering (Some baseTender) 0 80 ∅
           "fleetCapacity" " 12 Bagger " H).
Defined.

(** ** routeFeasibilityScore, one argument at a time *)

Lemma min10_spec (x : Q) :
  (JsNumber.min 10 x <= 10 /\ JsNumber.min 10 x <= x /\
   (10 <= JsNumber.min 10 x \/ x <= JsNumber.min 10 x))%Q.
Proof.
  unfold JsNumber.min.
  destruct (Q.min_spec 10 x) as [[H1 H2] | [H1 H2]]; rewrite H2; lra.
Qed.

Lemma min10_mono (x y : Q) : (x <= y -> JsNumber.min 10 x <= JsNumber.min 10 y)%Q.
Proof.
  intros H.
  destruct (min10_spec x) as (? & ? & [?|?]), (min10_spec y) as (? & ? & [?|?]); lra.
Qed.

(** Property X17.  A site at most 50 km away, for a project that does not run a negative
    number of days, scores the full 100 whatever the fleet description
    says. *)
Theorem routeFeasibilityScore_near (distanceKm projectDays : Q) (fleetStr : string) :
  (distanceKm <= 50)%Q -> (0 <= projectDays)%Q ->
  routeFeasibilityScore distanceKm projectDays fleetStr = 100.
Proof.
  intros Hd Hp. unfold routeFeasibilityScore.
  destruct (max0_spec (distanceKm - 50)) as (Hm1 & Hm2 & Hm3).
  destruct (min10_spec (projectDays / 30 * 2)) as (Hn1 & Hn2 & Hn3).
  assert (0 <= projectDays / 30 * 2)%Q as Hdays.
  { assert (projectDays / 30 * 2 == projectDays * (2 # 30))%Q as -> by field. lra. }
  set (penalty := JsNumber.max 0 (distanceKm - 50)) in *.
  set (bonus := JsNumber.min 10 (projectDays / 30 * 2)) in *.
  assert (100 <= round (100 - penalty * (4 # 10) + bonus
                        + (if mentionsRegionalDepot fleetStr then 1 else 0) * 8)).
  { apply round_ge. unfold inject_Z.
    destruct (mentionsRegionalDepot fleetStr); destruct Hm3, Hn3; lra. }
  lia.
Qed.

Lemma routeFeasibilityScore_near_witness :
  ((25 <= 50)%Q /\ (0 <= 150)%Q) /\
  routeFeasibilityScore 25 150 "Description" = 100.
Proof.
  assert ((25 <= 50)%Q /\ (0 <= 150)%Q) as H by (split; vm_compute; discriminate).
  split; [exact H|].
  exact (routeFeasibilityScore_near 25 150 "Description" (proj1 H) (proj2 H)).
Defined.

(** Property X18.  The score never rises with the distance and never falls with the
    duration of the project. *)
Theorem routeFeasibilityScore_monotone (distance1 distance2 days1 days2 : Q)
    (fleetStr : string) :
  (distance1 <= distance2)%Q -> (days2 <= days1)%Q ->
  routeFeasibilityScore distance2 days2 fleetStr
  <= routeFeasibilityScore distance1 days1 fleetStr.
Proof.
  intros Hd Hp. unfold routeFeasibilityScore.
  apply Z.max_le_compat_l, Z.min_le_compat_l, round_mono.
  assert (distance1 - 50 <= distance2 - 50)%Q as Hd' by lra.
  apply max0_mono in Hd'.
  assert (days2 / 30 * 2 <= days1 / 30 * 2)%Q as Hp'.
  { assert (days2 / 30 * 2 == days2 * (2 # 30))%Q as -> by field.
    assert (days1 / 30 * 2 == days1 * (2 # 30))%Q as -> by field. lra. }
  apply min10_mono in Hp'.
  set (p1 := JsNumber.max 0 (distance1 - 50)) in *.
  set (p2 := JsNumber.max 0 (distance2 - 50)) in *.
  set (b1 := JsNumber.min 10 (days1 / 30 * 2)) in *.
  set (b2 := JsNumber.min 10 (days2 / 30 * 2)) in *.
  lra.
Qed.

Lemma routeFeasibilityScore_monotone_witness :
  ((120 <= 300)%Q /\ (30 <= 90)%Q) /\
  routeFeasibilityScore 300 30 "Depot Leipzig" <= routeFeasibilityScore 120 90 "Depot Leipzig".
Proof.
  assert ((120 <= 300)%Q /\ (30 <= 90)%Q) as H by (split; vm_compute; discriminate).
  split; [exact H|].
  exact (routeFeasibilityScore_monotone 120 300 90 30 "Depot Leipzig" (proj1 H) (proj2 H)).
Defined.

(** ** The list of documents *)

Lemma filter_negb_length {A : Type} (p : A -> bool) (l : list A) :
  (length (List.filter p l) + length (List.filter (fun x => negb (p x)) l) = length l)%nat.
Proof.
  induction l as [|x l IH]; simpl; [reflexivity|].
  destruct (p x); simpl; lia.
Qed.

Lemma missingCount_app (l1 l2 : list DocItem) :
  missingCount (l1 ++ l2) = (missingCount l1 + missingCount l2)%nat.
Proof. unfold missingCount. rewrite List.filter_app, length_app. reflexivity. Qed.

Lemma missingCount_uploadsFrom (now : nat -> Z) (names : list string) (idx : nat) :
  missingCount (uploadsFrom now idx names) = 0%nat /\
  List.map doc_name (uploadsFrom now idx names) = names.
Proof.
  revert idx. induction names as [|name rest IH]; intros idx; [split; reflexivity|].
  destruct (IH (S idx)) as [IH1 IH2]. split.
  - exact IH1.
  - simpl. rewrite IH2. reflexivity.
Qed.

(** Property X19.  The documents that are ready and those that count as missing make up
    the whole list, and an upload adds one ready document per file, under
    the name of the file, without changing the count of the missing ones. *)
Theorem handleUpload_missingCount (now : nat -> Z) (names : list string)
    (prev : list DocItem) :
  (readyDocs prev + missingCount prev = totalDocs prev)%nat /\
  missingCount (handleUpload now (Some names) prev) = missingCount prev /\
  readyDocs (handleUpload now (Some names) prev) = (readyDocs prev + length names)%nat /\
  List.map doc_name (handleUpload now (Some names) prev)
  = (List.map doc_name prev ++ names)%list.
Proof.
  assert (forall l, readyDocs l + missingCount l = totalDocs l)%nat as Hsum.
  { intros l. apply (filter_negb_length (fun d => isPresent (doc_status d))). }
  destruct (missingCount_uploadsFrom now names 0) as [Hnone Hnames].
  assert (missingCount (handleUpload now (Some names) prev) = missingCount prev) as Hmissing.
  { cbn [handleUpload]. rewrite missingCount_app, Hnone. lia. }
  split; [apply Hsum|]. split; [exact Hmissing|]. split.
  - pose proof (Hsum (handleUpload now (Some names) prev)) as H1.
    pose proof (Hsum prev) as H2.
    assert (totalDocs (handleUpload now (Some names) prev) = totalDocs prev + length names)%nat
      as Hlen.
    { unfold totalDocs. cbn [handleUpload]. rewrite length_app.
      rewrite <- Hnames at 2. rewrite length_map. reflexivity. }
    lia.
  - cbn [handleUpload]. rewrite map_app, Hnames. reflexivity.
Qed.

Lemma setDocStatus_length (id : string) (status : DocStatus) (prev : list DocItem) :
  length (setDocStatus id status prev) = length prev.
Proof. apply length_map. Qed.

Lemma setDocStatus_present_le (id : string) (prev : list DocItem) :
  (missingCount (setDocStatus id present prev) <= missingCount prev)%nat.
Proof.
  induction prev as [|d prev IH]; [apply Nat.le_refl|].
  unfold missingCount in *. cbn [setDocStatus List.map List.filter].
  fold (setDocStatus id present prev).
  destruct (String.eqb (doc_id d) id); cbn [doc_status isPresent negb].
  - destruct (negb (isPresent (doc_status d))); simpl; lia.
  - destruct (negb (isPresent (doc_status d))); simpl; lia.
Qed.

Lemma setDocStatus_absent (id : string) (status : DocStatus) (prev : list DocItem) :
  ~ In id (List.map doc_id prev) -> setDocStatus id status prev = prev.
Proof.
  induction prev as [|d prev IH]; intros Hnot; [reflexivity|].
  cbn [setDocStatus List.map]. fold (setDocStatus id status prev).
  destruct (String.eqb (doc_id d) id) eqn:Heq.
  - apply String.eqb_eq in Heq. exfalso. apply Hnot. left. exact Heq.
  - rewrite IH; [reflexivity|]. intros Hin. apply Hnot. right. exact Hin.
Qed.

(** Property X20.  [setDocStatus] keeps the ids, the names and the notes of all documents
    in their order; among documents with distinct ids, marking one that is
    not ready as present lowers the count of the missing ones by exactly
    one. *)
Theorem setDocStatus_present (d : DocItem) (prev : list DocItem) :
  NoDup (List.map doc_id prev) ->
  In d prev ->
  doc_status d <> present ->
  List.map doc_id (setDocStatus (doc_id d) present prev) = List.map doc_id prev /\
  List.map doc_name (setDocStatus (doc_id d) present prev) = List.map doc_name prev /\
  List.map doc_notes (setDocStatus (doc_id d) present prev) = List.map doc_notes prev /\
  S (missingCount (setDocStatus (doc_id d) present prev)) = missingCount prev.
Proof.
  intros Hnodup Hin Hstatus.
  assert (forall (A : Type) (f : DocItem -> A) id status l,
            (forall x, f {| doc_id := doc_id x; doc_name := doc_name x;
                            doc_status := status; doc_notes := doc_notes x |} = f x) ->
            List.map f (setDocStatus id status l) = List.map f l) as Hkeep.
  { intros A f id status l Hf. unfold setDocStatus. rewrite List.map_map.
    apply List.map_ext. intros x. destruct (String.eqb (doc_id x) id); [apply Hf | reflexivity]. }
  split; [apply Hkeep; reflexivity|].
  split; [apply Hkeep; reflexivity|].
  split; [apply Hkeep; reflexivity|].
  induction prev as [|d0 prev IH]; [destruct Hin|].
  apply NoDup_cons in Hnodup as [Hfresh Hnodup].
  rewrite list_elem_of_In in Hfresh.
  cbn [setDocStatus List.map]. fold (setDocStatus (doc_id d) present prev).
  destruct Hin as [-> | Hin].
  - rewrite String.eqb_refl.
    rewrite (setDocStatus_absent (doc_id d) present prev Hfresh).
    unfold missingCount. cbn [List.filter doc_status isPresent negb].
    destruct (doc_status d); [contradiction | reflexivity | reflexivity].
  - destruct (String.eqb (doc_id d0) (doc_id d)) eqn:Heq.
    + apply String.eqb_eq in Heq. exfalso. apply Hfresh. rewrite Heq.
      apply in_map. exact Hin.
    + specialize (IH Hnodup Hin).
      unfold missingCount in *. cbn [List.filter].
      destruct (negb (isPresent (doc_status d0))); cbn [length]; lia.
Qed.

(** ** What the wizard derives from its state *)

(** Property X21.  Marking a document as present never lowers the chance shown, and an
    upload leaves it as it is. *)
Theorem winProb_documents (selected : option Tender) (docs : list DocItem)
    (answers : gmap string string) (id : string) (now : nat -> Z)
    (files : option (list string)) :
  winProb selected docs answers <= winProb selected (setDocStatus id present docs) answers /\
  winProb selected (handleUpload now files docs) answers = winProb selected docs answers.
Proof.
  split.
  - unfold winProb. destruct selected as [t|]; [|reflexivity].
    apply computeWinProbability_mono; [|lia|lra].
    apply inject_nat_le, setDocStatus_present_le.
  - unfold winProb. destruct files as [names|]; [|reflexivity].
    cbn [handleUpload]. rewrite missingCount_app.
    rewrite (proj1 (missingCount_uploadsFrom now names 0)), Nat.add_0_r. reflexivity.
Qed.

Lemma onKey_range (key : string) (s : Z) : 1 <= s <= 9 -> 1 <= onKey key s <= 9.
Proof.
  intros H. unfold onKey.
  destruct (String.eqb key "ArrowRight"), (String.eqb key "ArrowLeft"); lia.
Qed.

(** Property X22.  Starting from a step between 1 and 9, no sequence of key presses leads
    out of that range. *)
Theorem onKey_stays_in_range (keys : list string) (s : Z) :
  1 <= s <= 9 ->
  1 <= fold_left (fun s key => onKey key s) keys s <= 9.
Proof.
  revert s. induction keys as [|key keys IH]; intros s H; [exact H|].
  simpl. apply IH, onKey_range, H.
Qed.

Lemma onKey_stays_in_range_witness :
  1 <= 1 <= 9 /\
  1 <= fold_left (fun s key => onKey key s) ["ArrowLeft"; "ArrowRight"; "Enter"] 1 <= 9.
Proof.
  assert (1 <= 1 <= 9) as H by lia.
  split; [exact H|].
  exact (onKey_stays_in_range ["ArrowLeft"; "ArrowRight"; "Enter"] 1 H).
Defined.

(** ** mapSummaryToTender, the sizes and the verdict *)

Lemma pickTopStrings_length (items : list JV) (limit : nat) (out : list string) :
  pickTopStrings items limit = Ok out -> (length out <= limit)%nat.
Proof.
  unfold pickTopStrings. destruct (forEach pickTopStrings_each items []) as [deduped|]; cbn [bind]; [|discriminate].
  intros [= <-]. rewrite length_take. lia.
Qed.

Lemma pickTopRisks_length (risks : list JV) (metaSource : JV) (out : list SourceInfo) :
  pickTopRisks risks metaSource = Ok out -> (length out <= 5)%nat.
Proof.
  unfold pickTopRisks. destruct (forEach (pickTopRisks_each metaSource) risks []) as [deduped|]; cbn [bind]; [|discriminate].
  intros [= <-]. rewrite length_map, length_take. lia.
Qed.

Lemma pickTopCriteria_length (criteria : list JV) (metaSource : JV) (out : list SourceInfo) :
  pickTopCriteria criteria metaSource = Ok out -> (length out <= 5)%nat.
Proof.
  unfold pickTopCriteria.
  destruct (forEach (pickTopCriteria_each metaSource) criteria []) as [seen|]; cbn [bind]; [|discriminate].
  intros [= <-]. rewrite length_map, length_take. lia.
Qed.

Lemma pickTopRequirements_length (requirements : list JV) (metaSource : JV)
    (out : list SourceInfo) :
  pickTopRequirements requirements metaSource = Ok out -> (length out <= 5)%nat.
Proof.
  unfold pickTopRequirements.
  destruct (callTrim _) as [primarySource|]; cbn [bind]; [|discriminate].
  destruct (mapMi requirementOf requirements) as [mapped|]; cbn [bind]; [|discriminate].
  intros [= <-].
  apply pickTopRequirements_loop_invariants; [simpl; lia | constructor | intros r []].
Qed.

Lemma buildTimelineSteps_length (steps : list JV) (timeline metaSource : JV)
    (out : list ProcessStep) :
  buildTimelineSteps steps timeline metaSource = Ok out -> (length out <= 6)%nat.
Proof.
  unfold buildTimelineSteps.
  destruct (mapMi _ steps) as [mapped|]; cbn [bind]; [|discriminate].
  destruct (synthesizeSubmission _ _ _) as [bucketed|]; cbn [bind]; [|discriminate].
  intros [= <-].
  match goal with
  | |- context [numberSteps 0 ?l] =>
      rewrite (proj2 (numberSteps_numbers 0 l)); rewrite length_take; lia
  end.
Qed.

Lemma filterM_length {A : Type} (p : A -> result bool) (l out : list A) :
  filterM p l = Ok out -> (length out <= length l)%nat.
Proof.
  revert out. induction l as [|x l IH]; intros out; cbn [filterM].
  - intros [= <-]. simpl. lia.
  - destruct (p x) as [keep|]; cbn [bind]; [|discriminate].
    destruct (filterM p l) as [rest|]; cbn [bind]; [|discriminate].
    intros [= <-]. specialize (IH rest eq_refl). destruct keep; simpl; lia.
Qed.

Ltac step_bind :=
  match goal with
  | |- bind ?e _ = Ok _ -> _ =>
      let H := fresh "Hstep" in
      destruct e eqn:H; cbn [bind]; [|discriminate]
  end.

Lemma mapSummaryToTender_fields (payload : BatchSummaryPayload) (t : Tender) :
  mapSummaryToTender payload = Ok t ->
  score t = 85%Q /\
  mustHits t = lengthCappedAt5 (mandatoryRequirementsOf payload) /\
  mustTotal t = lengthCappedAt5 (mandatoryRequirementsOf payload) /\
  (length (submissionWithSource t) <= 5)%nat /\
  (length (legalRisksWithSource t) <= 5)%nat /\
  (length (evaluationCriteriaWithSource t) <= 5)%nat /\
  (length (penalties t) <= 5)%nat /\
  (length (certifications t) <= 5)%nat /\
  (length (serviceTypes t) <= 7)%nat /\
  (length (processSteps t) <= 6)%nat /\
  submission t = List.map text (submissionWithSource t) /\
  legalRisks t = List.map text (legalRisksWithSource t) /\
  evaluationCriteria t = List.map text (evaluationCriteriaWithSource t) /\
  missingEvidence t = List.map text (missingEvidenceWithSource t).
Proof.
  unfold mapSummaryToTender. cbv zeta.
  do 8 step_bind. intros [= <-]. cbn -[lengthCappedAt5].
  repeat split;
    eauto using pickTopRequirements_length, pickTopRisks_length, pickTopCriteria_length,
      pickTopStrings_length, buildTimelineSteps_length.
Qed.

(** Property X12.  Whatever the bundle holds, a tender that [mapSummaryToTender] returns
    has the score 85, as many mandatory criteria met as there are, and at
    most five requirements, five risks, five criteria, five penalties, five
    certifications, seven service types and six steps; each plain list
    holds the texts of the records beside it. *)
Theorem mapSummaryToTender_caps (payload : BatchSummaryPayload) (t : Tender) :
  mapSummaryToTender payload = Ok t ->
  score t = 85%Q /\ mustHits t = mustTotal t /\
  (length (submission t) <= 5)%nat /\
  (length (legalRisks t) <= 5)%nat /\
  (length (evaluationCriteria t) <= 5)%nat /\
  (length (penalties t) <= 5)%nat /\
  (length (certifications t) <= 5)%nat /\
  (length (serviceTypes t) <= 7)%nat /\
  (length (processSteps t) <= 6)%nat /\
  submission t = List.map text (submissionWithSource t) /\
  legalRisks t = List.map text (legalRisksWithSource t) /\
  evaluationCriteria t = List.map text (evaluationCriteriaWithSource t) /\
  missingEvidence t = List.map text (missingEvidenceWithSource t).
Proof.
  intros H. apply mapSummaryToTender_fields in H.
  destruct H as (Hs & Hh & Ht & H1 & H2 & H3 & H4 & H5 & H6 & H7 & E1 & E2 & E3 & E4).
  rewrite E1, E2, E3, !length_map, Hh, Ht.
  repeat split; assumption.
Qed.

Lemma mapSummaryToTender_caps_witness :
  exists t,
    mapSummaryToTender (payloadOf nurIsoNachweis) = Ok t /\
    score t = 85%Q /\ mustHits t = mustTotal t /\
    (length (submission t) <= 5)%nat /\
    (length (legalRisks t) <= 5)%nat /\
    (length (evaluationCriteria t) <= 5)%nat /\
    (length (penalties t) <= 5)%nat /\
    (length (certifications t) <= 5)%nat /\
    (length (serviceTypes t) <= 7)%nat /\
    (length (processSteps t) <= 6)%nat /\
    submission t = List.map text (submissionWithSource t) /\
    legalRisks t = List.map text (legalRisksWithSource t) /\
    evaluationCriteria t = List.map text (evaluationCriteriaWithSource t) /\
    missingEvidence t = List.map text (missingEvidenceWithSource t).
Proof.
  eexists. split; [reflexivity|].
  exact (mapSummaryToTender_caps (payloadOf nurIsoNachweis) _ eq_refl).
Defined.

Lemma pct_lengthCappedAt5 (l : list JV) :
  pct (lengthCappedAt5 l) (lengthCappedAt5 l) = match l with [] => 0 | _ => 100 end.
Proof.
  destruct l as [|x l]; [reflexivity|].
  apply pct_full. unfold lengthCappedAt5.
  intros H. unfold Qeq in H. cbn [inject_Z Qnum Qden length] in H. lia.
Qed.

(** Property X13.  The verdict on a tender that [mapSummaryToTender] returns depends on
    one thing only: it is GO when the bundle lists a mandatory requirement,
    whatever it says, and NO-GO when it lists none; the percentage of the
    mandatory criteria is 100 in the first case and 0 in the second. *)
Theorem goNoGo_mapSummaryToTender (payload : BatchSummaryPayload) (t : Tender) :
  mapSummaryToTender payload = Ok t ->
  match mandatoryRequirementsOf payload with
  | [] => goNoGo t = "NO-GO" /\ mustPct (Some t) = 0
  | _ :: _ => goNoGo t = "GO" /\ mustPct (Some t) = 100
  end.
Proof.
  intros H. apply mapSummaryToTender_fields in H.
  destruct H as (Hs & Hh & Ht & _).
  unfold goNoGo, mustPct. rewrite Hs, Hh, Ht, pct_lengthCappedAt5.
  destruct (mandatoryRequirementsOf payload); split; reflexivity.
Qed.

Lemma goNoGo_mapSummaryToTender_witness :
  exists t,
    mapSummaryToTender (payloadOf nurIsoNachweis) = Ok t /\
    goNoGo t = "GO" /\ mustPct (Some t) = 100.
Proof.
  eexists. split; [reflexivity|].
  exact (goNoGo_mapSummaryToTender (payloadOf nurIsoNachweis) _ eq_refl).
Defined.

(** ** The list of documents, an instance *)

Lemma setDocStatus_present_witness :
  (NoDup (List.map doc_id [zertifikat; pruefnachweise]) /\
   In pruefnachweise [zertifikat; pruefnachweise] /\
   doc_status pruefnachweise <> present) /\
  S (missingCount (setDocStatus (doc_id pruefnachweise) present [zertifikat; pruefnachweise]))
  = missingCount [zertifikat; pruefnachweise].
Proof.
  assert (NoDup (List.map doc_id [zertifikat; pruefnachweise]) /\
          In pruefnachweise [zertifikat; pruefnachweise] /\
          doc_status pruefnachweise <> present) as H.
  { split; [|split; [right; left; reflexivity | discriminate]].
    apply NoDup_cons. split; [|apply NoDup_singleton].
    intros Hin. apply list_elem_of_In in Hin. destruct Hin as [Heq | []]. discriminate. }
  split; [exact H|].
  exact (proj2 (proj2 (proj2
           (setDocStatus_present pruefnachweise [zertifikat; pruefnachweise]
              (proj1 H) (proj1 (proj2 H)) (proj2 (proj2 H)))))).
Defined.

(** ** getEconomicText *)

Lemma isPlaceholder_empty : isPlaceholder "" = true.
Proof. reflexivity. Qed.

(** Property X23.  What [getEconomicText] returns is empty or not a placeholder, and a
    value that is not an object gives the same text bare and wrapped in an
    object under the key [text]. *)
Theorem getEconomicText_shown (value : JV) :
  (forall shown, getEconomicText value = Ok shown ->
     shown = "" \/ isPlaceholder shown = false) /\
  (typeofObject value = false ->
   getEconomicText (JObj [("text", value)]) = getEconomicText value).
Proof.
  split.
  - intros shown. unfold getEconomicText.
    destruct (negb (truthy _)); [intros [= <-]; left; reflexivity|].
    destruct (ToString _) as [s|]; cbn [bind]; [|discriminate].
    destruct (isPlaceholder s) eqn:Hp; intros [= <-]; [left; reflexivity | right; exact Hp].
  - intros Hbare. unfold getEconomicText at 2. rewrite Hbare. reflexivity.
Qed.

Example getEconomicText_samples :
  getEconomicText (JStr "ca. 12 %") = Ok "ca. 12 %" /\
  getEconomicText (JObj [("text", JStr "ca. 12 %"); ("source_document", JStr "a.pdf")])
  = Ok "ca. 12 %" /\
  getEconomicText (JStr " Unbekannt ") = Ok "" /\
  getEconomicText (JObj [("text", JStr "k.A.")]) = Ok "" /\
  getEconomicText JNull = Ok "" /\
  getEconomicText (JNum 125) = Ok "125" /\
  getEconomicText (JNum 12) = Ok "" /\
  getEconomicText (JObj [("text", JObj [("de", JStr "hoch")])]) = Ok "[object Object]".
Proof. repeat split; reflexivity. Qed.

(** ** calcPrice and the presets *)

Lemma calcPrice_total (p : PricingInput) :
  total (calcPrice p)
  = round (subtotal (calcPrice p) + subtotal (calcPrice p) * marginPct p / 100).
Proof. reflexivity. Qed.

Lemma percent_of (x k : Q) : (x * k / 100 == x * k * (1 # 100))%Q.
Proof. field. Qed.

Lemma subtotal_applyPreset (pricing : PricingInput) (m e o : Q) :
  (subtotal (calcPrice (withRates pricing m e o))
   == (e + o) * projectDurationDays pricing
      + (deliveryDistance pricing * transportCostPerKm pricing * 2
         + (fuelCostPerDay pricing * projectDurationDays pricing
            + maintenanceCostPerDay pricing * projectDurationDays pricing
            + insurancePerDay pricing * projectDurationDays pricing)
         + setupCost pricing))%Q.
Proof. cbn. ring. Qed.

(** Property X24.  With a duration and with costs that are not negative the three presets
    are ordered by their total: lean is the cheapest and premium the most
    expensive. *)
Theorem applyPreset_ordered (pricing : PricingInput) :
  (0 <= projectDurationDays pricing)%Q ->
  (0 <= deliveryDistance pricing * transportCostPerKm pricing)%Q ->
  (0 <= fuelCostPerDay pricing)%Q ->
  (0 <= maintenanceCostPerDay pricing)%Q ->
  (0 <= insurancePerDay pricing)%Q ->
  (0 <= setupCost pricing)%Q ->
  0 <= total (calcPrice (applyPreset lean pricing))
  /\ total (calcPrice (applyPreset lean pricing))
     <= total (calcPrice (applyPreset standard pricing))
  /\ total (calcPrice (applyPreset standard pricing))
     <= total (calcPrice (applyPreset premium pricing)).
Proof.
  intros Hd Ht Hf Hm Hi Hs.
  pose proof (Qmult_le_0_compat _ _ Hf Hd) as Hfd.
  pose proof (Qmult_le_0_compat _ _ Hm Hd) as Hmd.
  pose proof (Qmult_le_0_compat _ _ Hi Hd) as Hid.
  cbn [applyPreset]. rewrite !calcPrice_total.
  pose proof (subtotal_applyPreset pricing 8 750 0) as Hlean.
  pose proof (subtotal_applyPreset pricing 12 850 320) as Hstandard.
  pose proof (subtotal_applyPreset pricing 18 1050 380) as Hpremium.
  set (lo := subtotal (calcPrice (withRates pricing 8 750 0))) in *.
  set (mid := subtotal (calcPrice (withRates pricing 12 850 320))) in *.
  set (hi := subtotal (calcPrice (withRates pricing 18 1050 380))) in *.
  cbn [marginPct withRates].
  set (d := projectDurationDays pricing) in *.
  set (t := (deliveryDistance pricing * transportCostPerKm pricing)%Q) in *.
  set (f := (fuelCostPerDay pricing * d)%Q) in *.
  set (m := (maintenanceCostPerDay pricing * d)%Q) in *.
  set (i := (insurancePerDay pricing * d)%Q) in *.
  set (s := setupCost pricing) in *.
  clearbody lo mid hi f m i t s d.
  split; [|split].
  - apply round_ge. rewrite percent_of. unfold inject_Z. lra.
  - apply round_mono. rewrite !percent_of. lra.
  - apply round_mono. rewrite !percent_of. lra.
Qed.

Lemma applyPreset_ordered_witness :
  total (calcPrice (applyPreset lean DEFAULT_PRICING))
  <= total (calcPrice (applyPreset standard DEFAULT_PRICING))
  /\ total (calcPrice (applyPreset standard DEFAULT_PRICING))
     <= total (calcPrice (applyPreset premium DEFAULT_PRICING)).
Proof.
  refine (proj2 (applyPreset_ordered DEFAULT_PRICING _ _ _ _ _ _));
    vm_compute; discriminate.
Defined.

Example calcPrice_default :
  subtotal (calcPrice DEFAULT_PRICING) == 191260 /\
  margin (calcPrice DEFAULT_PRICING) == 229512 # 10 /\
  total (calcPrice DEFAULT_PRICING) = 214211 /\
  calcPrice (applyPreset standard DEFAULT_PRICING) = calcPrice DEFAULT_PRICING.
Proof. repeat split; reflexivity. Qed.

(** ** waitForSummary *)

Lemma waitForSummary_loop_spec {A : Type} (fetchBatchSummary : nat -> result A)
    (remaining attempts : nat) :
  match waitForSummary_loop fetchBatchSummary remaining attempts with
  | Ok summary =>
      exists n, (attempts <= n < attempts + remaining)%nat /\
                fetchBatchSummary n = Ok summary /\
                forall m, (attempts <= m < n)%nat -> fetchBatchSummary m = Throw
  | Throw =>
      forall n, (attempts <= n < attempts + remaining)%nat -> fetchBatchSummary n = Throw
  end.
Proof.
  revert attempts. induction remaining as [|remaining IH]; intros attempts;
    cbn [waitForSummary_loop]; [intros n Hn; lia|].
  destruct (fetchBatchSummary attempts) as [summary|] eqn:Hfetch.
  - exists attempts. split; [lia|]. split; [exact Hfetch | intros m Hm; lia].
  - specialize (IH (S attempts)).
    destruct (waitForSummary_loop fetchBatchSummary remaining (S attempts)) as [summary|].
    + destruct IH as (n & Hn & Hok & Hbefore). exists n.
      split; [lia|]. split; [exact Hok|]. intros m Hm.
      destruct (decide (m = attempts)) as [->|Hne]; [exact Hfetch | apply Hbefore; lia].
    + intros n Hn.
      destruct (decide (n = attempts)) as [->|Hne]; [exact Hfetch | apply IH; lia].
Qed.

(** Property X25.  [waitForSummary] returns the summary of the first request that
    succeeds, provided it is among the first five, and raises the error
    when all of the first five requests fail; a sixth request is never
    sent. *)
Theorem waitForSummary_first_success {A : Type} (fetchBatchSummary : nat -> result A) :
  match waitForSummary fetchBatchSummary with
  | Ok summary =>
      exists n, (n < 5)%nat /\
                fetchBatchSummary n = Ok summary /\
                forall m, (m < n)%nat -> fetchBatchSummary m = Throw
  | Throw => forall n, (n < 5)%nat -> fetchBatchSummary n = Throw
  end /\
  forall later : nat -> result A,
    (forall n, (n < 5)%nat -> later n = fetchBatchSummary n) ->
    waitForSummary later = waitForSummary fetchBatchSummary.
Proof.
  split.
  - pose proof (waitForSummary_loop_spec fetchBatchSummary 5 0) as H.
    unfold waitForSummary.
    destruct (waitForSummary_loop fetchBatchSummary 5 0) as [summary|].
    + destruct H as (n & Hn & Hok & Hbefore). exists n.
      split; [lia|]. split; [exact Hok|]. intros m Hm. apply Hbefore. lia.
    + intros n Hn. apply H. lia.
  - intros later Hlater. unfold waitForSummary. cbn [waitForSummary_loop].
    rewrite !Hlater by lia. reflexivity.
Qed.

Example waitForSummary_third_attempt :
  waitForSummary (fun n => if (n <? 2)%nat then Throw else Ok n) = Ok 2%nat /\
  waitForSummary (fun n => if (n <? 5)%nat then Throw else Ok n) = Throw.
Proof. split; reflexivity. Qed.
